(** * lapis: lidar inventory resolution and extraction

    A shallow embedding of [src/lapis/lapis.py] (classes
    [SearchLidarInventory], [ProcessLidarCollections] and the function
    [fetch_lidar]) and the properties of it that the design document
    states.

    Python values are an inductive type, exceptions are an inductive
    type, and a Python function that can raise returns a [res].  What
    the module gets from other libraries (the json codec, shapely
    reprojection and buffering, the HTTP service, the pdal tool, pyproj)
    is a field of the record [World], so a theorem stated for every
    [World] holds for every behaviour of those libraries; the concrete
    runs use a small test double. *)

From Stdlib Require Import ZArith String Ascii List Bool Lia Floats.
From stdpp Require Import base option list strings gmap.

Set Warnings "-register-all,-clear-no-such-hyp".
Local Open Scope string_scope.
Local Open Scope list_scope.
Local Open Scope Z_scope.

(** ** Python values *)

(** The values that flow through the module: [None], [pandas.NA],
    booleans, integers, floats (IEEE binary64, [numpy.nan] is the float
    [nan]), strings, lists (tuples are lists here: [json.dumps] and
    indexing treat them alike) and dictionaries with string keys, kept
    in insertion order because iteration over a dictionary is ordered.
    A string is a sequence of one-byte characters. *)
Inductive pyval : Type :=
| PNone
| PNA
| PBool (b : bool)
| PInt (z : Z)
| PFloat (f : float)
| PStr (s : string)
| PList (l : list pyval)
| PDict (d : list (string * pyval)).

(** ** Python exceptions and results *)

(** The exception classes that the module raises or that reach it from
    a library.  [Exception] is the plain [raise Exception(msg)] of the
    source.  [JSONDecodeError] is raised by [json.loads],
    [CalledProcessError] by [subprocess.check_output].  None of the
    other classes below is a subclass of a class that the source
    catches. *)
Inductive exn : Type :=
| Exception (msg : string)
| KeyError (key : pyval)
| TypeError
| AttributeError
| IndexError
| ValueError (msg : string)
| JSONDecodeError
| CalledProcessError
| LibraryError (cls : string).

Inductive res (A : Type) : Type :=
| Ok (a : A)
| Raise (e : exn).
Arguments Ok {A} a.
Arguments Raise {A} e.

Definition bind {A B : Type} (m : res A) (k : A -> res B) : res B :=
  match m with
  | Ok a => k a
  | Raise e => Raise e
  end.

Notation "'let!' x ':=' m 'in' k" := (bind m (fun x => k))
  (at level 10, x name, m at level 100, k at level 200).

(** [try: body except classes: handler]. *)
Definition try_except {A : Type} (body : res A) (caught : exn -> bool) (handler : res A) : res A :=
  match body with
  | Ok a => Ok a
  | Raise e => if caught e then handler else Raise e
  end.

(** ** Operations on Python values *)

Definition np_nan : pyval := PFloat nan.

(** [pandas.isnull] on a scalar. *)
Definition pd_isnull (v : pyval) : bool :=
  match v with
  | PNone | PNA => true
  | PFloat f => PrimFloat.is_nan f
  | _ => false
  end.

(** [isinstance(v, str)]. *)
Definition is_str (v : pyval) : bool :=
  match v with PStr _ => true | _ => false end.

(** [v == s] for a string literal [s]. *)
Definition eq_str (v : pyval) (s : string) : bool :=
  match v with PStr t => String.eqb t s | _ => false end.

Fixpoint assoc (k : string) (d : list (string * pyval)) : option pyval :=
  match d with
  | [] => None
  | (k', v) :: d' => if String.eqb k k' then Some v else assoc k d'
  end.

(** [v[k]] for a string key [k]: a dictionary looks the key up, every
    other value raises [TypeError] (lists and strings want integer
    indices, the rest is not subscriptable). *)
Definition getitem (v : pyval) (k : string) : res pyval :=
  match v with
  | PDict d => match assoc k d with Some x => Ok x | None => Raise (KeyError (PStr k)) end
  | _ => Raise TypeError
  end.

(** [v.get(k)]: only dictionaries have the method. *)
Definition dict_get (v : pyval) (k : string) : res pyval :=
  match v with
  | PDict d => Ok (default PNone (assoc k d))
  | _ => Raise AttributeError
  end.

(** [for l in v]: the elements of a list, the keys of a dictionary, the
    characters of a string; other values are not iterable. *)
Definition py_iter (v : pyval) : res (list pyval) :=
  match v with
  | PList l => Ok l
  | PDict d => Ok (map (fun kv => PStr (fst kv)) d)
  | PStr s => Ok (map (fun c => PStr (String c EmptyString)) (list_ascii_of_string s))
  | _ => Raise TypeError
  end.

(** [[proj(l) for l in items if cond(l)]]: the condition, then the
    projection, element by element; the first exception ends it. *)
Fixpoint comprehension (cond : pyval -> res bool) (proj : pyval -> res pyval)
    (items : list pyval) : res (list pyval) :=
  match items with
  | [] => Ok []
  | l :: rest =>
      let! c := cond l in
      if c then
        let! v := proj l in
        let! vs := comprehension cond proj rest in
        Ok (v :: vs)
      else comprehension cond proj rest
  end.

(** ** Regular expression [ID=(\d+)] *)

Definition is_digit (c : ascii) : bool :=
  let n := nat_of_ascii c in (48 <=? n)%nat && (n <=? 57)%nat.

Fixpoint take_digits (s : string) : string :=
  match s with
  | String c s' => if is_digit c then String c (take_digits s') else EmptyString
  | EmptyString => EmptyString
  end.

(** [re.search(r'ID=(\d+)', s)] followed by [.group(1)]: the leftmost
    position where [ID=] is followed by a digit, and the longest run of
    digits there.  The digits are the ASCII ones. *)
Fixpoint re_search_ID (s : string) : option string :=
  match s with
  | EmptyString => None
  | String c s' =>
      match s with
      | String "I" (String "D" (String "=" (String d r))) =>
          if is_digit d then Some (take_digits (String d r)) else re_search_ID s'
      | _ => re_search_ID s'
      end
  end.

(** ** Geometries and tables *)

Definition coord : Type := float * float.

(** A shapely polygon: its exterior ring and its interior rings, each
    the coordinate sequence that [.coords] lists (two-dimensional). *)
Record polygon : Type := mkPolygon {
  exterior : list coord;
  interiors : list (list coord)
}.

Inductive geom : Type :=
| GPoint (c : coord)
| GLineString (cs : list coord)
| GLinearRing (cs : list coord)
| GPolygon (pg : polygon)
| GMultiPoint (cs : list coord)
| GMultiLineString (ls : list (list coord))
| GMultiPolygon (geoms : list polygon)
| GGeometryCollection (gs : list geom).

Definition geom_type (g : geom) : string :=
  match g with
  | GPoint _ => "Point"
  | GLineString _ => "LineString"
  | GLinearRing _ => "LinearRing"
  | GPolygon _ => "Polygon"
  | GMultiPoint _ => "MultiPoint"
  | GMultiLineString _ => "MultiLineString"
  | GMultiPolygon _ => "MultiPolygon"
  | GGeometryCollection _ => "GeometryCollection"
  end.

(** One row of a GeoDataFrame: its attribute columns and its geometry. *)
Record feature : Type := mkFeature {
  properties : gmap string pyval;
  geometry : geom
}.

(** A GeoDataFrame: the EPSG code of its CRS, if it has one, and its
    rows in order. *)
Record geoframe : Type := mkFrame {
  crs : option Z;
  rows : list feature
}.

(** An HTTP response as the query client reads it: the status code and
    the outcome of [gpd.GeoDataFrame.from_features(response.json()['features'])]. *)
Record response : Type := mkResponse {
  status_code : Z;
  features : res (list feature)
}.

(** ** The libraries the module calls *)

Record World : Type := mkWorld {
  (** [json.loads] on a string; [None] is [JSONDecodeError]. *)
  json_loads : string -> option pyval;
  (** [json.dumps]. *)
  json_dumps : pyval -> string;
  (** [str(v)] for the values that [str_format] leaves to it. *)
  py_repr : pyval -> string;
  (** [shapely.geometry.Point(v)]. *)
  shapely_Point : pyval -> res geom;
  (** [shapely.geometry.Polygon(shell)] on a list of pairs. *)
  shapely_Polygon : list (pyval * pyval) -> res geom;
  (** pyproj, through [GeoDataFrame.to_crs]: source code, target code. *)
  reproject : Z -> Z -> geom -> geom;
  (** [geometry.buffer(distance)]. *)
  geom_buffer : geom -> pyval -> res geom;
  (** [gpd.read_file(path)]. *)
  read_file : pyval -> res geoframe;
  (** [requests.post(url, data=payload)]: the answer to the [n]-th
      request of the run ([n] requests were made before it). *)
  requests_post : nat -> string -> list (string * string) -> response;
  (** [subprocess.check_output(cmd, universal_newlines=True)]. *)
  check_output : list string -> res string;
  (** [pyproj.CRS.from_string(wkt).to_epsg()]; [Ok None] when [to_epsg]
      finds no code. *)
  crs_to_epsg : pyval -> res (option Z);
  (** [total_bounds.tolist()] of a frame: minx, miny, maxx, maxy. *)
  total_bounds : geoframe -> float * float * float * float;
  (** [frame.geometry.to_wkt()[0]]. *)
  wkt_at_0 : geoframe -> res pyval;
  (** The order in which [list(set([a, b]))] lists two unequal
      elements (it follows their hashes): [true] puts [b] first. *)
  set_flip : pyval -> pyval -> bool;
  (** Whether two [nan] cells of a row are one float object. *)
  nan_shared : bool;
  (** [pdal.Pipeline(text)] then [execute()], [arrays], [metadata]. *)
  pdal_pipeline : string -> res (pyval * pyval * pyval)
}.

(** ** class SearchLidarInventory *)

Record SearchLidarInventory : Type := mkSearch {
  locations : list (gmap string pyval);
  wgs : Z;
  albers : Z;
  mercator : Z
}.

(** [__init__]. *)
Definition SearchLidarInventory_init (locations : list (gmap string pyval)) : SearchLidarInventory :=
  {| locations := locations; wgs := 4326; albers := 5070; mercator := 3857 |}.

(** [list(ring.coords)]: a list of [(x, y)] tuples. *)
Definition coords_list (cs : list coord) : pyval :=
  PList (map (fun c => PList [PFloat (fst c); PFloat (snd c)]) cs).

(** [[list(pg.exterior.coords)] + [list(interior.coords) for interior in pg.interiors]]. *)
Definition polygon_rings (pg : polygon) : list pyval :=
  [coords_list (exterior pg)] ++ map coords_list (interiors pg).

(** [geom.geoms] of a multi-polygon and the rings of a polygon; the
    encoder reads them only after the test on [geom.geom_type]. *)
Definition multipolygon_geoms (geom : geom) : list polygon :=
  match geom with GMultiPolygon geoms => geoms | _ => [] end.

Definition polygon_of (geom : geom) : polygon :=
  match geom with GPolygon pg => pg | _ => mkPolygon [] [] end.

(** The variable [rings] of [convert_to_esri_geometry] after the
    branches on [geom.geom_type]; [None] on the last branch, which
    returns [None].  The message printed there is not modelled. *)
Definition esri_rings (geom : geom) : option (list pyval) :=
  if String.eqb (geom_type geom) "MultiPolygon" then
    Some (fold_left (fun rings pg => rings ++ polygon_rings pg) (multipolygon_geoms geom) [])
  else if String.eqb (geom_type geom) "Polygon" then
    Some (polygon_rings (polygon_of geom))
  else None.

(** [convert_to_esri_geometry]: the text of [json.dumps({'rings': rings})],
    or [None]. *)
Definition convert_to_esri_geometry (W : World) (geom : geom) : pyval :=
  match esri_rings geom with
  | Some rings => PStr (json_dumps W (PDict [("rings", PList rings)]))
  | None => PNone
  end.

(** [location[k]] on a location dictionary or a row. *)
Definition loc_get (location : gmap string pyval) (k : string) : res pyval :=
  match location !! k with
  | Some v => Ok v
  | None => Raise (KeyError (PStr k))
  end.

(** [{key: location[key] for key in keys}], the keys in order. *)
Fixpoint dict_of_keys (location : gmap string pyval) (keys : list string)
    (acc : gmap string pyval) : res (gmap string pyval) :=
  match keys with
  | [] => Ok acc
  | key :: keys' =>
      let! v := loc_get location key in
      dict_of_keys location keys' (<[key := v]> acc)
  end.

(** [v[i]] for an integer index [i >= 0]. *)
Definition getitem_int (v : pyval) (i : nat) : res pyval :=
  match v with
  | PList l => match nth_error l i with Some x => Ok x | None => Raise IndexError end
  | PStr s => match String.get i s with Some c => Ok (PStr (String c EmptyString)) | None => Raise IndexError end
  | PDict _ => Raise (KeyError (PInt (Z.of_nat i)))
  | _ => Raise TypeError
  end.

Definition is_KeyError (e : exn) : bool :=
  match e with KeyError _ => true | _ => false end.

Fixpoint map_res {A B : Type} (f : A -> res B) (l : list A) : res (list B) :=
  match l with
  | [] => Ok []
  | a :: l' =>
      let! b := f a in
      let! bs := map_res f l' in
      Ok (b :: bs)
  end.

(** [gdf.to_crs(epsg)]: geopandas refuses a frame without a CRS. *)
Definition frame_to_crs (W : World) (epsg : Z) (gdf : geoframe) : res geoframe :=
  match crs gdf with
  | None => Raise (ValueError "Cannot transform naive geometries.  Please set a crs on the object first.")
  | Some src =>
      Ok (mkFrame (Some epsg)
            (map (fun r => mkFeature (properties r) (reproject W src epsg (geometry r))) (rows gdf)))
  end.

(** [gdf['geometry'] = gdf['geometry'].buffer(distance)]. *)
Definition frame_buffer (W : World) (gdf : geoframe) (distance : pyval) : res geoframe :=
  let! rs := map_res (fun r =>
                let! g := geom_buffer W (geometry r) distance in
                Ok (mkFeature (properties r) g)) (rows gdf) in
  Ok (mkFrame (crs gdf) rs).

(** The body of the loop of [generate_geometries] for one location:
    the frame that the taken branch appends to [gdfs], or [None] when
    no branch is taken. *)
Definition location_frame (W : World) (self : SearchLidarInventory)
    (location : gmap string pyval) : res (option geoframe) :=
  let! data_type := loc_get location "data_type" in
  if eq_str data_type "coords" then
    let! attributes := dict_of_keys location ["name"; "buffer"] ∅ in
    let! value := loc_get location "value" in
    let! point := shapely_Point W value in
    let gdf := mkFrame (Some (wgs self)) [mkFeature attributes point] in
    let! buffer := try_except (loc_get attributes "buffer") is_KeyError (Ok (PInt 50)) in
    let! gdf_albers := frame_to_crs W (albers self) gdf in
    let! gdf_albers := frame_buffer W gdf_albers buffer in
    let! gdf := frame_to_crs W (wgs self) gdf_albers in
    Ok (Some gdf)
  else if eq_str data_type "file" then
    let! value := loc_get location "value" in
    let! gdf := read_file W value in
    let! name := loc_get location "name" in
    Ok (Some (mkFrame (crs gdf)
                (map (fun r => mkFeature {[ "name" := name ]} (geometry r)) (rows gdf))))
  else if eq_str data_type "bbox" then
    let! bbox := loc_get location "value" in
    let! attributes := dict_of_keys location ["name"] ∅ in
    (* bbox[0], bbox[1], bbox[2], bbox[3]: the source reads each twice *)
    let! x0 := getitem_int bbox 0 in
    let! y0 := getitem_int bbox 1 in
    let! x1 := getitem_int bbox 2 in
    let! y1 := getitem_int bbox 3 in
    let! pg := shapely_Polygon W [(x0, y0); (x1, y0); (x1, y1); (x0, y1)] in
    Ok (Some (mkFrame (Some (wgs self)) [mkFeature attributes pg]))
  else Ok None.

(** [for location in self.locations: ...] with the list [gdfs]. *)
Fixpoint locations_loop (W : World) (self : SearchLidarInventory)
    (locs : list (gmap string pyval)) (gdfs : list geoframe) : res (list geoframe) :=
  match locs with
  | [] => Ok gdfs
  | location :: rest =>
      let! r := location_frame W self location in
      locations_loop W self rest
        (match r with Some gdf => gdfs ++ [gdf] | None => gdfs end)
  end.

(** [pd.concat(gdfs, ignore_index=True)]: the rows of the frames in
    order; pandas raises on an empty list.  (Columns that a frame lacks
    are filled with nan by pandas; a row keeps its own attributes here.) *)
Definition pd_concat (gdfs : list geoframe) : res (list feature) :=
  match gdfs with
  | [] => Raise (ValueError "No objects to concatenate")
  | _ => Ok (concat (map rows gdfs))
  end.

(** [l[0]]. *)
Definition list_first {A : Type} (l : list A) : res A :=
  match l with
  | a :: _ => Ok a
  | [] => Raise IndexError
  end.

(** The single-part geometries of a geometry. *)
Definition explode_geom (g : geom) : list geom :=
  match g with
  | GMultiPoint cs => map GPoint cs
  | GMultiLineString ls => map GLineString ls
  | GMultiPolygon geoms => map GPolygon geoms
  | GGeometryCollection gs => gs
  | _ => [g]
  end.

(** [gdf.explode(index_parts=False)]. *)
Definition explode (gdf : geoframe) : geoframe :=
  mkFrame (crs gdf)
    (flat_map (fun r => map (mkFeature (properties r)) (explode_geom (geometry r))) (rows gdf)).

(** [generate_geometries].  In the call
    [gpd.GeoDataFrame(pd.concat(gdfs, ignore_index=True), crs=gdfs[0].crs)]
    the positional argument is evaluated before the keyword argument. *)
Definition generate_geometries (W : World) (self : SearchLidarInventory) : res (geoframe * geoframe) :=
  let! gdfs := locations_loop W self (locations self) [] in
  let! table := pd_concat gdfs in
  let! first := list_first gdfs in
  let gdf_wgs := mkFrame (crs first) table in
  let! gdf_mercator := frame_to_crs W (mercator self) gdf_wgs in
  let gdf_mercator := explode gdf_mercator in
  let! gdf_wgs := frame_to_crs W (wgs self) gdf_mercator in
  let gdf_mercator :=
    mkFrame (crs gdf_mercator)
      (map (fun r => mkFeature
              (<["esri_geometry" := convert_to_esri_geometry W (geometry r)]> (properties r))
              (geometry r)) (rows gdf_mercator)) in
  Ok (gdf_wgs, gdf_mercator).

(** One request of the query client: the URL and the form fields. *)
Record request : Type := mkRequest {
  req_url : string;
  req_data : list (string * string)
}.

(** What the loops of [make_post_request] change: the requests made so
    far, the dictionary [payload] and the list [gdfs]. *)
Record client_state : Type := mkClient {
  sent : list request;
  payload : list (string * string);
  collected : list geoframe
}.

(** [payload.update({key: value})]. *)
Fixpoint payload_update (key value : string) (payload : list (string * string)) : list (string * string) :=
  match payload with
  | [] => [(key, value)]
  | (k, v) :: rest =>
      if String.eqb k key then (k, value) :: rest
      else (k, v) :: payload_update key value rest
  end.

(** [f"{v}"]. *)
Definition str_format (W : World) (v : pyval) : string :=
  match v with
  | PStr s => s
  | PNone => "None"
  | _ => py_repr W v
  end.

Definition initial_payload : list (string * string) :=
  [ ("outFields", "*"); ("geometry", ""); ("geometryType", "esriGeometryPolygon");
    ("spatialRel", "esriSpatialRelIntersects"); ("returnGeometry", "true");
    ("returnIdsOnly", "false"); ("f", "geojson") ].

Definition urls : list string :=
  [ "https://coast.noaa.gov/arcgis/rest/services/USInteragencyElevationInventory/USIEIv2/MapServer/2/query";
    "https://coast.noaa.gov/arcgis/rest/services/USInteragencyElevationInventory/USIEIv2/MapServer/0/query" ].

(** [gdf[['name', 'esri_geometry']].to_dict(orient='records')]. *)
Definition frame_records (gdf : geoframe) : res (list (pyval * pyval)) :=
  map_res (fun r =>
    let! name := loc_get (properties r) "name" in
    let! esri := loc_get (properties r) "esri_geometry" in
    Ok (name, esri)) (rows gdf).

(** The [if]/[elif] chain on [response.status_code]: the new value of
    [gdfs], or the exception raised. *)
Definition check_response (self : SearchLidarInventory) (name : pyval)
    (response : response) (gdfs : list geoframe) : res (list geoframe) :=
  if status_code response =? 200 then
    let! feats := features response in
    match feats with
    | [] => Ok gdfs
    | _ =>
        let gdf := mkFrame (Some (wgs self))
                     (map (fun r => mkFeature (<["name" := name]> (properties r)) (geometry r)) feats) in
        Ok (gdfs ++ [gdf])
    end
  else if status_code response =? 400 then
    Raise (Exception "Request failed. 400 - Bad request")
  else if status_code response =? 401 then
    Raise (Exception "Request failed. 401 - Unauthorized")
  else if status_code response =? 500 then
    Raise (Exception "Request failed. 500 - Internal error")
  else Ok gdfs.

(** [for location in locations: ...] for one [url]. *)
Fixpoint post_locations (W : World) (self : SearchLidarInventory) (url : string)
    (locs : list (pyval * pyval)) (st : client_state) : client_state * res unit :=
  match locs with
  | [] => (st, Ok tt)
  | (name, esri) :: rest =>
      let payload := payload_update "geometry" (str_format W esri) (payload st) in
      let response := requests_post W (length (sent st)) url payload in
      let sent := sent st ++ [mkRequest url payload] in
      match check_response self name response (collected st) with
      | Ok gdfs => post_locations W self url rest (mkClient sent payload gdfs)
      | Raise e => (mkClient sent payload (collected st), Raise e)
      end
  end.

(** [for url in urls: ...]. *)
Fixpoint post_urls (W : World) (self : SearchLidarInventory) (us : list string)
    (locs : list (pyval * pyval)) (st : client_state) : client_state * res unit :=
  match us with
  | [] => (st, Ok tt)
  | url :: rest =>
      match post_locations W self url locs st with
      | (st', Ok _) => post_urls W self rest locs st'
      | (st', Raise e) => (st', Raise e)
      end
  end.

(** [make_post_request]: the requests that were made, and the table of
    collections or the exception. *)
Definition make_post_request (W : World) (self : SearchLidarInventory)
    (gdf : geoframe) : list request * res geoframe :=
  match frame_records gdf with
  | Raise e => ([], Raise e)
  | Ok locs =>
      match post_urls W self urls locs (mkClient [] initial_payload []) with
      | (st, Raise e) => (sent st, Raise e)
      | (st, Ok _) =>
          (sent st,
           let! table := pd_concat (collected st) in
           Ok (mkFrame (Some (wgs self)) table))
      end
  end.

(** [get_lidar_collections]. *)
Definition get_lidar_collections (W : World) (self : SearchLidarInventory)
    : list request * res (geoframe * geoframe) :=
  match generate_geometries W self with
  | Raise e => ([], Raise e)
  | Ok (locs_wgs, locs_mercator) =>
      match make_post_request W self locs_mercator with
      | (reqs, Raise e) => (reqs, Raise e)
      | (reqs, Ok lidar_collections) => (reqs, Ok (locs_wgs, lidar_collections))
      end
  end.

(** ** class ProcessLidarCollections *)

(** [json.loads(x)]: [TypeError] unless [x] is a string. *)
Definition loads (W : World) (x : pyval) : res pyval :=
  match x with
  | PStr s => match json_loads W s with Some v => Ok v | None => Raise JSONDecodeError end
  | _ => Raise TypeError
  end.

(** [except (json.JSONDecodeError, TypeError)]. *)
Definition decode_or_type_error (e : exn) : bool :=
  match e with JSONDecodeError | TypeError => true | _ => false end.

(** [_parse_ept_from_usiaei]. *)
Definition _parse_ept_from_usiaei (W : World) (x : pyval) : res pyval :=
  match x with
  | PNone => Ok PNone
  | _ =>
      try_except
        (let! links := loads W x in
         let! items := getitem links "links" in
         let! items := py_iter items in
         let! values :=
           comprehension
             (fun l => let! t := dict_get l "linktype" in Ok (eq_str t "EPT Link"))
             (fun l => getitem l "link")
             items in
         match values with
         | v :: _ => Ok v
         | [] => Ok np_nan
         end)
        decode_or_type_error
        (Ok np_nan)
  end.

(** [re.search(r'ID=(\d+)', v)]: [TypeError] unless [v] is a string. *)
Definition re_search (v : pyval) : res (option string) :=
  match v with
  | PStr s => Ok (re_search_ID s)
  | _ => Raise TypeError
  end.

(** [_parse_noaa_lidar_id].  The [and] of the filter reads
    [l['linktype']] only when the label matches.  When no link matches,
    or the first match has no [ID=] number, the function ends without a
    [return] and yields [None]. *)
Definition _parse_noaa_lidar_id (W : World) (x : pyval) : res pyval :=
  match x with
  | PNone => Ok PNone
  | _ =>
      try_except
        (let! links := loads W x in
         let! items := getitem links "links" in
         let! items := py_iter items in
         let! values :=
           comprehension
             (fun l =>
                let! label := getitem l "label" in
                if eq_str label "NOAA Digital Coast" then
                  let! t := getitem l "linktype" in Ok (eq_str t "Data Access")
                else Ok false)
             (fun l => getitem l "link")
             items in
         match values with
         | v :: _ =>
             let! m := re_search v in
             match m with
             | Some id => Ok (PStr id)
             | None => Ok PNone
             end
         | [] => Ok PNone
         end)
        decode_or_type_error
        (Ok np_nan)
  end.

(** The exact value of a finite float as [m * 2^e]. *)
Definition float_exact (f : float) : option (Z * Z) :=
  match Prim2SF f with
  | S754_zero _ => Some (0, 0)
  | S754_finite s m e => Some (if s then Z.neg m else Z.pos m, e)
  | _ => None
  end.

(** [z == f] for an integer and a float: Python compares the exact values. *)
Definition int_eq_float (z : Z) (f : float) : bool :=
  match float_exact f with
  | Some (m, e) => if 0 <=? e then z =? m * 2 ^ e else m =? z * 2 ^ (- e)
  | None => false
  end.

Definition int_of_bool (b : bool) : Z := if b then 1 else 0.

(** The test by which a set holds one element for two values: they are
    the same object, or they are equal (and so have equal hashes). *)
Definition same_key (W : World) (a b : pyval) : bool :=
  match a, b with
  | PNone, PNone => true
  | PNA, PNA => true
  | PStr s, PStr t => String.eqb s t
  | PBool x, PBool y => Bool.eqb x y
  | PInt x, PInt y => x =? y
  | PBool x, PInt y | PInt y, PBool x => int_of_bool x =? y
  | PFloat f, PFloat g =>
      if PrimFloat.is_nan f && PrimFloat.is_nan g then nan_shared W else PrimFloat.eqb f g
  | PInt x, PFloat f | PFloat f, PInt x => int_eq_float x f
  | PBool x, PFloat f | PFloat f, PBool x => int_eq_float (int_of_bool x) f
  | _, _ => false
  end.

Definition hashable (v : pyval) : bool :=
  match v with PList _ | PDict _ => false | _ => true end.

(** [list(set([a, b]))]. *)
Definition list_set2 (W : World) (a b : pyval) : res (list pyval) :=
  if hashable a && hashable b then
    Ok (if same_key W a b then [a]
        else if set_flip W a b then [b; a] else [a; b])
  else Raise TypeError.

(** [_get_ept_url] on a row of the collections table. *)
Definition _get_ept_url (W : World) (x : gmap string pyval) : res pyval :=
  let! a := loc_get x "ept_usiaei" in
  let! b := loc_get x "EPT" in
  let! url := list_set2 W a b in
  let url := List.filter (fun i => negb (pd_isnull i)) url in
  if (length url =? 1)%nat then list_first url
  else Ok np_nan.

(** [bool(v)]. *)
Definition truthy (v : pyval) : res bool :=
  match v with
  | PNone => Ok false
  | PNA => Raise TypeError
  | PBool b => Ok b
  | PInt z => Ok (negb (z =? 0))
  | PFloat f => Ok (negb (PrimFloat.eqb f 0))
  | PStr s => Ok (negb (String.eqb s ""))
  | PList l => Ok (negb (Nat.eqb (length l) 0))
  | PDict d => Ok (negb (Nat.eqb (length d) 0))
  end.

(** [int(epsg)] on the result of [to_epsg()]. *)
Definition py_int (epsg : option Z) : res Z :=
  match epsg with
  | Some n => Ok n
  | None => Raise TypeError
  end.

(** [except (subprocess.CalledProcessError, json.JSONDecodeError, KeyError)]. *)
Definition introspection_error (e : exn) : bool :=
  match e with CalledProcessError | JSONDecodeError | KeyError _ => true | _ => false end.

(** [_get_ept_epsg].  The [try] block yields [Some n] when it returns
    [int(epsg)] and [None] when it ends without a [return]. *)
Definition _get_ept_epsg (W : World) (url : pyval) : res Z :=
  match url with
  | PStr u =>
      let! r :=
        try_except
          (let cmd := ["pdal"; "info"; "--summary"; u] in
           let! output := check_output W cmd in
           let! metadata := loads W (PStr output) in
           let! summary := getitem metadata "summary" in
           let! srs := getitem summary "srs" in
           let! wkt_string := getitem srs "wkt" in
           let! t := truthy wkt_string in
           if t then
             let! epsg := crs_to_epsg W wkt_string in
             let! n := py_int epsg in
             Ok (Some n)
           else Ok None)
          introspection_error
          (Ok None) in
      match r with
      | Some n => Ok n
      | None => Ok 4326
      end
  | _ => Ok 4326
  end.

(** ** fetch_lidar *)

(** The columns of the table passed to [fetch_lidar] that it reads;
    [None] is a table without the column. *)
Record collections : Type := mkCollections {
  ept : option (list pyval);
  ept_gdf : option (list geoframe)
}.

(** [gdf.column]: attribute access to a column. *)
Definition column {A : Type} (c : option (list A)) : res (list A) :=
  match c with
  | Some l => Ok l
  | None => Raise AttributeError
  end.

(** [Series.item()]. *)
Definition series_item {A : Type} (l : list A) : res A :=
  match l with
  | [a] => Ok a
  | _ => Raise (ValueError "can only convert an array of size 1 to a Python scalar")
  end.

(** [f"([{minx}, {maxx}], [{miny}, {maxy}])"]. *)
Definition bounds_text (W : World) (minx miny maxx maxy : float) : string :=
  String.append "([" (String.append (str_format W (PFloat minx))
  (String.append ", " (String.append (str_format W (PFloat maxx))
  (String.append "], [" (String.append (str_format W (PFloat miny))
  (String.append ", " (String.append (str_format W (PFloat maxy)) "])"))))))).

(** [fetch_lidar]: the outcome of the pdal pipeline built from the
    table, with the name of the output file.  The message printed when
    [write] is set is not modelled. *)
Definition fetch_lidar (W : World) (gdf : collections) (geometry_method : pyval)
    (write : bool) (out_las : string) : res (pyval * pyval * pyval * string) :=
  let! ept_url := column (ept gdf) in
  match ept_url with
  | [] => Raise (Exception "The collection does not have an EPT url. Exiting...")
  | ept_url :: _ =>
      let pipeline :=
        [("type", PStr "readers.ept"); ("filename", ept_url); ("tag", PStr "readdata")] in
      let! frames := column (ept_gdf gdf) in
      let! ept_gdf := series_item frames in
      let! pipeline :=
        if eq_str geometry_method "bounds" then
          match total_bounds W ept_gdf with
          | (minx, miny, maxx, maxy) =>
              Ok (pipeline ++ [("bounds", PStr (bounds_text W minx miny maxx maxy))])
          end
        else if eq_str geometry_method "polygon" then
          let! wkt := wkt_at_0 W ept_gdf in
          Ok (pipeline ++ [("polygon", wkt)])
        else Ok pipeline in
      let pipeline :=
        if write then
          [PDict pipeline; PDict [("type", PStr "writers.las"); ("filename", PStr out_las)]]
        else [PDict pipeline] in
      let! out := pdal_pipeline W (json_dumps W (PList pipeline)) in
      match out with
      | (count, arrays, metadata) => Ok (count, arrays, metadata, out_las)
      end
  end.

(** ** The design document's reading of endpoint reconciliation *)

(** A cell of an endpoint column: a string or a null value. *)
Definition endpoint_cell (v : pyval) : bool := is_str v || pd_isnull v.

(** The distinct non-null values among the two endpoint cells. *)
Definition cell_values (v : pyval) : gset string :=
  match v with
  | PStr s => {[ s ]}
  | _ => ∅
  end.

Definition candidates (ept_usiaei ept_noaa : pyval) : gset string :=
  cell_values ept_usiaei ∪ cell_values ept_noaa.

(** A row of the collections table with the two endpoint columns. *)
Definition endpoint_row (ept_usiaei ept_noaa : pyval) : gmap string pyval :=
  {[ "ept_usiaei" := ept_usiaei; "EPT" := ept_noaa ]}.

(** ** The design document's reading of the Esri encoding *)

(** The rings of a polygon: the exterior ring, then the interior rings. *)
Definition ring_list (pg : polygon) : list (list coord) :=
  exterior pg :: interiors pg.




(** The polygon that shapely holds for a square with the given
    corners: one exterior ring, closed, and no interior ring. *)
Definition square (x0 y0 x1 y1 : float) : polygon :=
  mkPolygon [(x0, y0); (x1, y0); (x1, y1); (x0, y1); (x0, y0)] [].

(** ** The design document's reading of the query client *)

(** One (endpoint, region) pair: the URL, and the [name] and
    [esri_geometry] of the region. *)
Definition query : Type := string * (pyval * pyval).

(** The pairs in the order of the two loops. *)
Definition queries (locs : list (pyval * pyval)) : list query :=
  flat_map (fun url => map (pair url) locs) urls.

(** The request made for a pair. *)
Definition query_request (W : World) (q : query) : request :=
  mkRequest (fst q) (payload_update "geometry" (str_format W (snd (snd q))) initial_payload).

(** The response to the request for a pair, made as the [n]-th request. *)
Definition query_response (W : World) (n : nat) (q : query) : response :=
  requests_post W n (fst q) (req_data (query_request W q)).

(** The statuses that abort the run. *)
Definition fatal (r : response) : bool :=
  (status_code r =? 400) || (status_code r =? 401) || (status_code r =? 500).

Definition failure_message (code : Z) : string :=
  if code =? 400 then "Request failed. 400 - Bad request"
  else if code =? 401 then "Request failed. 401 - Unauthorized"
  else "Request failed. 500 - Internal error".

(** A response after which the loops go on: its status is not fatal,
    and a 200 response has a body that reads as a feature table. *)
Definition passes (r : response) : bool :=
  negb (fatal r) &&
  (if status_code r =? 200 then match features r with Ok _ => true | Raise _ => false end
   else true).

(** The tables that a response adds to the result: the features of a
    200 response that has some, tagged with the region's name. *)
Definition contribution (self : SearchLidarInventory) (name : pyval) (r : response) : list geoframe :=
  if status_code r =? 200 then
    match features r with
    | Ok (f :: fs) =>
        [mkFrame (Some (wgs self))
           (map (fun r => mkFeature (<["name" := name]> (properties r)) (geometry r)) (f :: fs))]
    | _ => []
    end
  else [].

(** The tables added by the responses to a list of pairs, the first of
    which is made as the [n]-th request. *)
Fixpoint contributions (W : World) (self : SearchLidarInventory) (n : nat) (qs : list query) : list geoframe :=
  match qs with
  | [] => []
  | q :: rest =>
      contribution self (fst (snd q)) (query_response W n q) ++ contributions W self (S n) rest
  end.

(** A response that adds nothing and does not abort. *)
Definition adds_nothing (r : response) : bool :=
  negb (fatal r) &&
  (if status_code r =? 200 then match features r with Ok [] => true | _ => false end
   else true).

(** The two loops of [make_post_request] as one loop over the pairs. *)
Fixpoint post_queries (W : World) (self : SearchLidarInventory)
    (qs : list query) (st : client_state) : client_state * res unit :=
  match qs with
  | [] => (st, Ok tt)
  | (url, (name, esri)) :: rest =>
      let payload := payload_update "geometry" (str_format W esri) (payload st) in
      let response := requests_post W (length (sent st)) url payload in
      let sent := sent st ++ [mkRequest url payload] in
      match check_response self name response (collected st) with
      | Ok gdfs => post_queries W self rest (mkClient sent payload gdfs)
      | Raise e => (mkClient sent payload (collected st), Raise e)
      end
  end.

(** A payload whose [geometry] field, once set, is the one of the
    initial payload with that field set. *)
Definition geometry_slot (p : list (string * string)) : Prop :=
  forall g, payload_update "geometry" g p = payload_update "geometry" g initial_payload.

(** ** A test double for the libraries *)

(** [shapely.geometry.Polygon(shell)] on pairs of floats closes the
    ring; other coordinates are refused. *)
Definition float_pair (c : pyval * pyval) : option coord :=
  match c with
  | (PFloat x, PFloat y) => Some (x, y)
  | _ => None
  end.

Fixpoint float_pairs (shell : list (pyval * pyval)) : option (list coord) :=
  match shell with
  | [] => Some []
  | c :: rest =>
      match float_pair c, float_pairs rest with
      | Some p, Some ps => Some (p :: ps)
      | _, _ => None
      end
  end.

Definition coord_eqb (a b : coord) : bool :=
  PrimFloat.eqb (fst a) (fst b) && PrimFloat.eqb (snd a) (snd b).

Definition close_ring (ring : list coord) : list coord :=
  match ring, last ring with
  | p :: _, Some q => if coord_eqb p q then ring else ring ++ [p]
  | _, _ => ring
  end.

Definition test_Polygon (shell : list (pyval * pyval)) : res geom :=
  match float_pairs shell with
  | Some (p :: ps) => Ok (GPolygon (mkPolygon (close_ring (p :: ps)) []))
  | _ => Raise TypeError
  end.

Definition test_Point (v : pyval) : res geom :=
  match v with
  | PList [PFloat x; PFloat y] => Ok (GPoint (x, y))
  | _ => Raise TypeError
  end.

(** A world for concrete runs: the json decoder [loads], the scripted
    HTTP responses [posts] (404 after the script ends), the output
    [tool] of the pdal command and the pyproj answer [epsg]; no
    reprojection, no file, no pdal pipeline. *)
Definition test_world (loads : string -> option pyval) (posts : list response)
    (tool : list string -> res string) (epsg : pyval -> res (option Z)) : World :=
  {| json_loads := loads;
     json_dumps := fun _ => "{}";
     py_repr := fun _ => "?";
     shapely_Point := test_Point;
     shapely_Polygon := test_Polygon;
     reproject := fun _ _ g => g;
     geom_buffer := fun g d =>
       match d with PInt _ | PFloat _ => Ok g | _ => Raise TypeError end;
     read_file := fun _ => Raise (LibraryError "DriverError");
     requests_post := fun n _ _ => nth n posts (mkResponse 404 (Raise JSONDecodeError));
     check_output := tool;
     crs_to_epsg := epsg;
     total_bounds := fun _ => (0%float, 0%float, 0%float, 0%float);
     wkt_at_0 := fun _ => Raise (KeyError (PInt 0));
     set_flip := fun _ _ => false;
     nan_shared := true;
     pdal_pipeline := fun _ => Raise (LibraryError "RuntimeError") |}.

(** A query table with one region. *)
Definition one_region : geoframe :=
  mkFrame (Some 3857)
    [mkFeature {[ "name" := PStr "site"; "esri_geometry" := PStr "{}" ]}
       (GPolygon (square 0 0 10 10))].

(** ** The design document's reading of region types *)

(** A region whose [data_type] is one of [coords], [file], [bbox]. *)
Definition recognized (location : gmap string pyval) : bool :=
  match location !! "data_type" with
  | Some t => eq_str t "coords" || eq_str t "file" || eq_str t "bbox"
  | None => false
  end.

(** A region that has a [data_type], and not one of the three. *)
Definition unrecognized (location : gmap string pyval) : bool :=
  match location !! "data_type" with
  | Some t => negb (eq_str t "coords" || eq_str t "file" || eq_str t "bbox")
  | None => false
  end.

(** Sample regions. *)
Definition box_region : gmap string pyval :=
  {[ "name" := PStr "box"; "data_type" := PStr "bbox";
     "value" := PList [PFloat 0; PFloat 0; PFloat 10; PFloat 10] ]}.

Definition circle_region : gmap string pyval :=
  {[ "name" := PStr "ring"; "data_type" := PStr "circle";
     "value" := PList [PFloat 1; PFloat 2; PFloat 3] ]}.

Definition gage_region : gmap string pyval :=
  {[ "name" := PStr "gage"; "data_type" := PStr "coords";
     "value" := PList [PFloat (-77); PFloat 39] ]}.

(** A world without json documents, HTTP script or pdal tool. *)
Definition quiet_world : World :=
  test_world (fun _ => None) [] (fun _ => Raise CalledProcessError) (fun _ => Ok None).

(** ** Sample documents *)

(** A json decoder given by a table of texts. *)
Definition table_loads (t : list (string * pyval)) (s : string) : option pyval := assoc s t.

Definition dq : string := String (ascii_of_nat 34) EmptyString.

(** The text [{"links": [{"linktype": "EPT Link", "link": "https://example.org/ept.json"}]}]
    and the value that [json.loads] gives for it: one link, without a
    [label] key. *)
Definition ept_only_text : string :=
  String.concat dq
    ["{"; "links"; ": [{"; "linktype"; ": "; "EPT Link"; ", "; "link"; ": ";
     "https://example.org/ept.json"; "}]}"].

Definition ept_only_doc : pyval :=
  PDict [("links", PList [PDict [("linktype", PStr "EPT Link");
                                 ("link", PStr "https://example.org/ept.json")]])].

Definition links_world : World :=
  test_world (table_loads [("{}", PDict []); (ept_only_text, ept_only_doc)]) []
    (fun _ => Raise CalledProcessError) (fun _ => Ok None).

(** The output of [pdal info --summary] as [json.loads] reads it, with
    the given [wkt] field. *)
Definition summary_doc (wkt : pyval) : pyval :=
  PDict [("summary", PDict [("srs", PDict [("wkt", wkt)])])].

(** A world in which the pdal tool answers, the answer carries a WKT
    text, and pyproj finds no EPSG code for it. *)
Definition local_crs_world : World :=
  test_world (table_loads [("summary", summary_doc (PStr "LOCAL_CS[]"))]) []
    (fun _ => Ok "summary") (fun _ => Ok None).

(** ** Readings of the source used by the further properties *)

(** A row that has the attribute [name]. *)
Definition has_name (r : feature) : Prop := is_Some (properties r !! "name").

(** The records that [make_post_request] reads from the rows of a
    table that has the columns [name] and [esri_geometry]. *)
Definition row_name (r : feature) : pyval := default PNone (properties r !! "name").

(** A row of the result of a query that is tagged with the name of one
    of the regions. *)
Definition tagged_by (names : list pyval) (r : feature) : Prop :=
  exists n, properties r !! "name" = Some n /\ In n names.

(** A table collected by the query client: in geographic coordinates,
    with at least one row, each row tagged by a region. *)
Definition collected_table (self : SearchLidarInventory) (names : list pyval) (g : geoframe) : Prop :=
  crs g = Some (wgs self) /\ rows g <> [] /\ Forall (tagged_by names) (rows g).

(** The links that the filter of [_parse_ept_from_usiaei] keeps: the
    [link] of each dictionary whose [linktype] is [EPT Link]. *)
Definition is_ept_link (l : pyval) : bool :=
  match l with
  | PDict d => eq_str (default PNone (assoc "linktype" d)) "EPT Link"
  | _ => false
  end.

Definition link_of (l : pyval) : option pyval :=
  match l with
  | PDict d => assoc "link" d
  | _ => None
  end.

Fixpoint ept_links (items : list pyval) : list pyval :=
  match items with
  | [] => []
  | l :: rest =>
      match (if is_ept_link l then link_of l else None) with
      | Some v => v :: ept_links rest
      | None => ept_links rest
      end
  end.

(** A link entry that [_parse_ept_from_usiaei] reads without an
    exception: a dictionary that has a [link] when its type is
    [EPT Link]. *)
Definition ept_entry (l : pyval) : bool :=
  match l with
  | PDict d => if is_ept_link l then bool_decide (is_Some (assoc "link" d)) else true
  | _ => false
  end.





(** The text [{"links": [{"label": "NOAA Digital Coast", "linktype":
    "Data Access", "link": "https://coast.noaa.gov/dataviewer/#/lidar/search/where:ID=8483"}]}]
    and its value: one data-access link. *)
Definition noaa_only_text : string :=
  String.concat dq
    ["{"; "links"; ": [{"; "label"; ": "; "NOAA Digital Coast"; ", "; "linktype"; ": ";
     "Data Access"; ", "; "link"; ": ";
     "https://coast.noaa.gov/dataviewer/#/lidar/search/where:ID=8483"; "}]}"].

Definition noaa_entry_doc : pyval :=
  PDict [("label", PStr "NOAA Digital Coast"); ("linktype", PStr "Data Access");
         ("link", PStr "https://coast.noaa.gov/dataviewer/#/lidar/search/where:ID=8483")].

(** The text [{"links": ["see also"]}]: an entry that is a string. *)
Definition string_entry_text : string :=
  String.concat dq ["{"; "links"; ": ["; "see also"; "]}"].

Definition noaa_world : World :=
  test_world
    (table_loads [(noaa_only_text, PDict [("links", PList [noaa_entry_doc])]);
                  (string_entry_text, PDict [("links", PList [PStr "see also"])])]) []
    (fun _ => Raise CalledProcessError) (fun _ => Ok None).

(** The end of [fetch_lidar]: the stages are serialized and handed to
    pdal, and the result is returned with the output file name. *)
Definition run_stages (W : World) (stages : list pyval) (out_las : string)
    : res (pyval * pyval * pyval * string) :=
  let! out := pdal_pipeline W (json_dumps W (PList stages)) in
  match out with
  | (count, arrays, metadata) => Ok (count, arrays, metadata, out_las)
  end.

(** The reader stage before a spatial filter is added, and the writer
    stage. *)
Definition reader_fields (ept_url : pyval) : list (string * pyval) :=
  [("type", PStr "readers.ept"); ("filename", ept_url); ("tag", PStr "readdata")].

Definition writer_stage (out_las : string) : pyval :=
  PDict [("type", PStr "writers.las"); ("filename", PStr out_las)].

(** A world in which the pdal tool answers with an empty WKT text and
    pyproj would raise. *)
Definition empty_wkt_world : World :=
  test_world (table_loads [("summary", summary_doc (PStr ""))]) []
    (fun _ => Ok "summary") (fun _ => Raise (LibraryError "CRSError")).

(** The value of a form field. *)
Fixpoint assoc_text (k : string) (fields : list (string * string)) : option string :=
  match fields with
  | [] => None
  | (k', v) :: rest => if String.eqb k k' then Some v else assoc_text k rest
  end.

(** * Properties *)

(** ** Endpoint reconciliation *)

Lemma loc_get_Some (x : gmap string pyval) (k : string) (v : pyval) :
  x !! k = Some v -> loc_get x k = Ok v.
Proof. intros H. unfold loc_get. now rewrite H. Qed.

Lemma loc_get_None (x : gmap string pyval) (k : string) :
  x !! k = None -> loc_get x k = Raise (KeyError (PStr k)).
Proof. intros H. unfold loc_get. now rewrite H. Qed.

Lemma endpoint_cell_inv (v : pyval) :
  endpoint_cell v = true ->
  (exists s, v = PStr s) \/ (pd_isnull v = true /\ hashable v = true /\ cell_values v = ∅).
Proof.
  destruct v; cbn; intros H; try discriminate; eauto.
Qed.

Lemma candidates_singleton (s t u : string) :
  ({[ s ]} ∪ {[ t ]} : gset string) = {[ u ]} -> s = u /\ t = u.
Proof.
  intros H.
  assert (Hs : s ∈ ({[ u ]} : gset string)).
  { rewrite <- H. apply elem_of_union_l. now apply elem_of_singleton. }
  assert (Ht : t ∈ ({[ u ]} : gset string)).
  { rewrite <- H. apply elem_of_union_r. now apply elem_of_singleton. }
  apply elem_of_singleton in Hs, Ht. auto.
Qed.

Ltac url_cases W :=
  cbn; repeat (match goal with
               | |- context [nan_shared W] => destruct (nan_shared W)
               | |- context [set_flip W ?a ?b] => destruct (set_flip W a b)
               | H : ?e = true |- context [?e] => rewrite H
               | H : ?e = false |- context [?e] => rewrite H
               end; cbn).

Lemma get_ept_url_cells (W : World) (x : gmap string pyval) (a b : pyval) :
  x !! "ept_usiaei" = Some a -> x !! "EPT" = Some b ->
  endpoint_cell a = true -> endpoint_cell b = true ->
  _get_ept_url W x =
    Ok (match a, b with
        | PStr s, PStr t => if String.eqb s t then PStr s else np_nan
        | PStr s, _ => PStr s
        | _, PStr t => PStr t
        | _, _ => np_nan
        end).
Proof.
  intros Ha Hb Ca Cb. unfold _get_ept_url.
  rewrite (loc_get_Some _ _ _ Ha), (loc_get_Some _ _ _ Hb). cbn.
  destruct a, b; cbn in Ca, Cb; try discriminate; unfold list_set2; url_cases W;
    try reflexivity.
  all: destruct (String.eqb s s0); reflexivity.
Qed.

Lemma endpoint_row_usiaei (a b : pyval) : endpoint_row a b !! "ept_usiaei" = Some a.
Proof. unfold endpoint_row. now simplify_map_eq. Qed.

Lemma endpoint_row_noaa (a b : pyval) : endpoint_row a b !! "EPT" = Some b.
Proof. unfold endpoint_row. now simplify_map_eq. Qed.

Lemma null_cell (n : pyval) : pd_isnull n = true -> endpoint_cell n = true.
Proof. intros H. unfold endpoint_cell. rewrite H. apply orb_true_r. Qed.

Lemma null_not_str (n : pyval) : pd_isnull n = true -> is_str n = false.
Proof. now destruct n. Qed.

(** C1.  For a row whose endpoint cells are strings or null values, the
    resolved endpoint is the unique distinct non-null value of the two
    cells when there is exactly one, and null ([numpy.nan]) when there
    is none or there are two; the five cases of the design document
    follow, for strings [A], [B] and null values [n], [m]. *)
Theorem endpoint_reconciliation (W : World) :
  (forall (x : gmap string pyval) (a b : pyval),
     x !! "ept_usiaei" = Some a -> x !! "EPT" = Some b ->
     endpoint_cell a = true -> endpoint_cell b = true ->
     (forall u, candidates a b = {[ u ]} -> _get_ept_url W x = Ok (PStr u)) /\
     (size (candidates a b) <> 1%nat -> _get_ept_url W x = Ok np_nan)) /\
  pd_isnull np_nan = true /\
  (forall (A B : string) (n m : pyval),
     pd_isnull n = true -> pd_isnull m = true ->
     _get_ept_url W (endpoint_row (PStr A) n) = Ok (PStr A) /\
     _get_ept_url W (endpoint_row n (PStr B)) = Ok (PStr B) /\
     _get_ept_url W (endpoint_row (PStr A) (PStr A)) = Ok (PStr A) /\
     (A <> B -> _get_ept_url W (endpoint_row (PStr A) (PStr B)) = Ok np_nan) /\
     _get_ept_url W (endpoint_row n m) = Ok np_nan).
Proof.
  split; [| split; [reflexivity |]].
  - intros x a b Ha Hb Ca Cb.
    rewrite (get_ept_url_cells W x a b Ha Hb Ca Cb).
    destruct (endpoint_cell_inv a Ca) as [[s ->] | (Na & _ & Ea)];
      destruct (endpoint_cell_inv b Cb) as [[t ->] | (Nb & _ & Eb)];
      unfold candidates; cbn [cell_values]; rewrite ?Ea, ?Eb.
    + destruct (String.eqb_spec s t) as [-> | Hne]; split.
      * intros u Hu. apply candidates_singleton in Hu. now destruct Hu as [-> _].
      * intros Hsz. exfalso. apply Hsz.
        replace ({[ t ]} ∪ {[ t ]} : gset string) with ({[ t ]} : gset string) by set_solver.
        apply size_singleton.
      * intros u Hu. apply candidates_singleton in Hu. destruct Hu as [-> Ht]. congruence.
      * reflexivity.
    + replace ({[ s ]} ∪ ∅ : gset string) with ({[ s ]} : gset string) by set_solver.
      split.
      * intros u Hu. assert (s = u) by set_solver. subst.
        destruct b; cbn in Nb; try discriminate; reflexivity.
      * intros Hsz. exfalso. apply Hsz. apply size_singleton.
    + replace (∅ ∪ {[ t ]} : gset string) with ({[ t ]} : gset string) by set_solver.
      split.
      * intros u Hu. assert (t = u) by set_solver. subst.
        destruct a; cbn in Na; try discriminate; reflexivity.
      * intros Hsz. exfalso. apply Hsz. apply size_singleton.
    + replace (∅ ∪ ∅ : gset string) with (∅ : gset string) by set_solver.
      split.
      * intros u Hu. exfalso. set_solver.
      * intros _. destruct a, b; cbn in Na, Nb; try discriminate; reflexivity.
  - intros A B n m Hn Hm.
    pose proof (null_cell n Hn) as Cn. pose proof (null_cell m Hm) as Cm.
    repeat split.
    + rewrite (get_ept_url_cells W _ (PStr A) n (endpoint_row_usiaei _ _) (endpoint_row_noaa _ _) eq_refl Cn).
      destruct n; cbn in Hn; try discriminate; reflexivity.
    + rewrite (get_ept_url_cells W _ n (PStr B) (endpoint_row_usiaei _ _) (endpoint_row_noaa _ _) Cn eq_refl).
      destruct n; cbn in Hn; try discriminate; reflexivity.
    + rewrite (get_ept_url_cells W _ (PStr A) (PStr A) (endpoint_row_usiaei _ _) (endpoint_row_noaa _ _) eq_refl eq_refl).
      now rewrite String.eqb_refl.
    + intros Hne.
      rewrite (get_ept_url_cells W _ (PStr A) (PStr B) (endpoint_row_usiaei _ _) (endpoint_row_noaa _ _) eq_refl eq_refl).
      apply String.eqb_neq in Hne. now rewrite Hne.
    + rewrite (get_ept_url_cells W _ n m (endpoint_row_usiaei _ _) (endpoint_row_noaa _ _) Cn Cm).
      destruct n, m; cbn in Hn, Hm; try discriminate; reflexivity.
Qed.

(** ** Esri geometry encoding *)


Lemma polygon_rings_ring_list (pg : polygon) :
  polygon_rings pg = map coords_list (ring_list pg).
Proof. reflexivity. Qed.






(** ** Spatial query client *)

Section QueryClient.

Context (W : World) (self : SearchLidarInventory).

Lemma post_locations_queries (url : string)
    (locs : list (pyval * pyval)) (st : client_state) :
  post_locations W self url locs st = post_queries W self (map (pair url) locs) st.
Proof.
  revert st. induction locs as [| [name esri] locs IH]; intros st; cbn; [reflexivity |].
  destruct (check_response _ _ _ _); [apply IH | reflexivity].
Qed.

Lemma post_queries_app (qs1 qs2 : list query)
    (st : client_state) :
  post_queries W self (qs1 ++ qs2) st =
    match post_queries W self qs1 st with
    | (st', Ok _) => post_queries W self qs2 st'
    | (st', Raise e) => (st', Raise e)
    end.
Proof.
  revert st. induction qs1 as [| [url [name esri]] qs1 IH]; intros st; cbn; [reflexivity |].
  destruct (check_response _ _ _ _); [apply IH | reflexivity].
Qed.

Lemma post_urls_queries (us : list string)
    (locs : list (pyval * pyval)) (st : client_state) :
  post_urls W self us locs st =
    post_queries W self (flat_map (fun url => map (pair url) locs) us) st.
Proof.
  revert st. induction us as [| url us IH]; intros st; cbn; [reflexivity |].
  rewrite post_queries_app, post_locations_queries.
  destruct (post_queries W self (map (pair url) locs) st) as [st' [[] | e]];
    [apply IH | reflexivity].
Qed.

Lemma payload_update_twice (key v v' : string) (p : list (string * string)) :
  payload_update key v (payload_update key v' p) = payload_update key v p.
Proof.
  induction p as [| [k w] p IH]; cbn.
  - now rewrite String.eqb_refl.
  - destruct (String.eqb k key) eqn:E; cbn; rewrite E; [reflexivity | now rewrite IH].
Qed.

Lemma check_response_passes (name : pyval) (r : response)
    (gdfs : list geoframe) :
  passes r = true ->
  check_response self name r gdfs = Ok (gdfs ++ contribution self name r).
Proof.
  unfold passes, fatal, check_response, contribution.
  destruct (status_code r =? 200) eqn:E200.
  - destruct (features r) as [[| f fs] | e]; cbn; intros H.
    + now rewrite app_nil_r.
    + reflexivity.
    + now rewrite andb_false_r in H.
  - destruct (status_code r =? 400), (status_code r =? 401), (status_code r =? 500);
      cbn; intros H; try discriminate. now rewrite app_nil_r.
Qed.

Lemma check_response_fatal (name : pyval) (r : response)
    (gdfs : list geoframe) :
  fatal r = true ->
  check_response self name r gdfs = Raise (Exception (failure_message (status_code r))).
Proof.
  unfold fatal, check_response, failure_message.
  destruct (Z.eqb_spec (status_code r) 200) as [E2 | E2];
    destruct (Z.eqb_spec (status_code r) 400) as [E4 | E4];
    destruct (Z.eqb_spec (status_code r) 401) as [E1 | E1];
    destruct (Z.eqb_spec (status_code r) 500) as [E5 | E5];
    cbn; intros H; try discriminate; try lia; reflexivity.
Qed.

Lemma geometry_slot_update (g : string) (p : list (string * string)) :
  geometry_slot p -> geometry_slot (payload_update "geometry" g p).
Proof. intros H g'. rewrite payload_update_twice. apply H. Qed.

Lemma client_state_eta (st : client_state) :
  mkClient (sent st) (payload st) (collected st) = st.
Proof. now destruct st. Qed.

(** While the responses pass, the loop makes one request per pair, in
    order, and collects what each response adds. *)
Lemma post_queries_pass (qs : list query) :
  forall st : client_state,
    geometry_slot (payload st) ->
    (forall j q, qs !! j = Some q ->
       passes (query_response W (length (sent st) + j) q) = true) ->
    exists p,
      post_queries W self qs st =
        (mkClient (sent st ++ map (query_request W) qs) p
                  (collected st ++ contributions W self (length (sent st)) qs),
         Ok tt).
Proof.
  induction qs as [| [url [name esri]] qs IH]; intros st Hslot Hpass.
  - exists (payload st). cbn. rewrite !app_nil_r. now rewrite client_state_eta.
  - cbn [post_queries].
    set (p1 := payload_update "geometry" (str_format W esri) (payload st)).
    assert (Hr : requests_post W (length (sent st)) url p1 =
                 query_response W (length (sent st)) (url, (name, esri))).
    { unfold query_response, query_request, p1. cbn [fst snd req_data]. now rewrite Hslot. }
    assert (Hq1 : mkRequest url p1 = query_request W (url, (name, esri))).
    { unfold query_request, p1. cbn [fst snd]. now rewrite Hslot. }
    pose proof (Hpass 0%nat _ eq_refl) as H0. rewrite Nat.add_0_r in H0.
    rewrite Hr, (check_response_passes name _ (collected st) H0).
    destruct (IH (mkClient (sent st ++ [mkRequest url p1]) p1
                    (collected st ++ contribution self name
                       (query_response W (length (sent st)) (url, (name, esri)))))) as [p Hp].
    + cbn. now apply geometry_slot_update.
    + intros j q Hq. cbn [sent]. rewrite length_app. cbn [length].
      replace (length (sent st) + 1 + j)%nat with (length (sent st) + S j)%nat by lia.
      now apply Hpass.
    + exists p. rewrite Hp. cbn [sent collected]. rewrite length_app. cbn [length].
      rewrite Nat.add_1_r. cbn [map contributions fst snd].
      rewrite Hq1. now rewrite <- !app_assoc.
Qed.

(** A fatal status at pair [k], after responses that pass, ends the
    loop there with the exception of that status. *)
Lemma post_queries_abort (qs : list query) :
  forall (st : client_state) (k : nat) (q : query),
    geometry_slot (payload st) ->
    qs !! k = Some q ->
    (forall j q', (j < k)%nat -> qs !! j = Some q' ->
       passes (query_response W (length (sent st) + j) q') = true) ->
    fatal (query_response W (length (sent st) + k) q) = true ->
    exists p,
      post_queries W self qs st =
        (mkClient (sent st ++ map (query_request W) (take (S k) qs)) p
                  (collected st ++ contributions W self (length (sent st)) (take k qs)),
         Raise (Exception (failure_message
                  (status_code (query_response W (length (sent st) + k) q))))).
Proof.
  induction qs as [| [url [name esri]] qs IH]; intros st k q Hslot Hk Hpass Hfatal.
  - discriminate.
  - cbn [post_queries].
    set (p1 := payload_update "geometry" (str_format W esri) (payload st)).
    assert (Hr : requests_post W (length (sent st)) url p1 =
                 query_response W (length (sent st)) (url, (name, esri))).
    { unfold query_response, query_request, p1. cbn [fst snd req_data]. now rewrite Hslot. }
    assert (Hq1 : mkRequest url p1 = query_request W (url, (name, esri))).
    { unfold query_request, p1. cbn [fst snd]. now rewrite Hslot. }
    destruct k as [| k].
    + cbn in Hk. injection Hk as <-. rewrite Nat.add_0_r in Hfatal |- *.
      rewrite Hr, (check_response_fatal name _ (collected st) Hfatal).
      exists p1. cbn [take map contributions]. now rewrite Hq1, app_nil_r.
    + cbn in Hk.
      pose proof (Hpass 0%nat _ ltac:(lia) eq_refl) as H0. rewrite Nat.add_0_r in H0.
      rewrite Hr, (check_response_passes name _ (collected st) H0).
      destruct (IH (mkClient (sent st ++ [mkRequest url p1]) p1
                      (collected st ++ contribution self name
                         (query_response W (length (sent st)) (url, (name, esri)))))
                   k q) as [p Hp].
      * cbn. now apply geometry_slot_update.
      * exact Hk.
      * intros j q' Hj Hq'. cbn [sent]. rewrite length_app. cbn [length].
        replace (length (sent st) + 1 + j)%nat with (length (sent st) + S j)%nat by lia.
        apply Hpass; [lia | exact Hq'].
      * cbn [sent]. rewrite length_app. cbn [length].
        replace (length (sent st) + 1 + k)%nat with (length (sent st) + S k)%nat by lia.
        exact Hfatal.
      * exists p. rewrite Hp. cbn [sent collected]. rewrite length_app. cbn [length].
        replace (length (sent st) + 1 + k)%nat with (length (sent st) + S k)%nat by lia.
        rewrite Nat.add_1_r. cbn [take map contributions fst snd].
        rewrite Hq1. now rewrite <- !app_assoc.
Qed.

Lemma make_post_request_queries (gdf : geoframe)
    (locs : list (pyval * pyval)) :
  frame_records gdf = Ok locs ->
  make_post_request W self gdf =
    match post_queries W self (queries locs) (mkClient [] initial_payload []) with
    | (st, Raise e) => (sent st, Raise e)
    | (st, Ok _) =>
        (sent st,
         let! table := pd_concat (collected st) in
         Ok (mkFrame (Some (wgs self)) table))
    end.
Proof.
  intros H. unfold make_post_request. rewrite H. now rewrite post_urls_queries.
Qed.

Lemma geometry_slot_initial : geometry_slot initial_payload.
Proof. intros g. reflexivity. Qed.

(** C4.  In a run over the pairs of [locs]: when the response to pair
    [k] has status 400, 401 or 500 and the responses before it let the
    loops go on, the run ends with the exception of that status right
    after request [k], no later request is made and no table is
    returned; a response with any other status than 200 leaves the
    collected tables as they are and raises nothing; and when every
    response lets the loops go on, each pair is requested exactly once. *)
Theorem spatial_query_failure_policy (gdf : geoframe) (locs : list (pyval * pyval)) :
  frame_records gdf = Ok locs ->
  (forall (k : nat) (q : query),
      queries locs !! k = Some q ->
      (forall j q', (j < k)%nat -> queries locs !! j = Some q' ->
         passes (query_response W j q') = true) ->
      fatal (query_response W k q) = true ->
      make_post_request W self gdf =
        (map (query_request W) (take (S k) (queries locs)),
         Raise (Exception (failure_message (status_code (query_response W k q)))))) /\
  (forall (name : pyval) (r : response) (gdfs : list geoframe),
      status_code r <> 200 -> fatal r = false ->
      check_response self name r gdfs = Ok gdfs /\ contribution self name r = []) /\
  ((forall j q', queries locs !! j = Some q' -> passes (query_response W j q') = true) ->
      make_post_request W self gdf =
        (map (query_request W) (queries locs),
         let! table := pd_concat (contributions W self 0 (queries locs)) in
         Ok (mkFrame (Some (wgs self)) table))).
Proof.
  intros Hlocs. rewrite (make_post_request_queries gdf locs Hlocs).
  split; [| split].
  - intros k q Hk Hpass Hfatal.
    destruct (post_queries_abort (queries locs) (mkClient [] initial_payload []) k q
                geometry_slot_initial Hk Hpass Hfatal) as [p Hp].
    rewrite Hp. reflexivity.
  - intros name r gdfs H200 Hfatal.
    assert (Hp : passes r = true).
    { unfold passes. rewrite Hfatal. apply Z.eqb_neq in H200. now rewrite H200. }
    assert (Hc : contribution self name r = []).
    { unfold contribution. apply Z.eqb_neq in H200. now rewrite H200. }
    rewrite (check_response_passes name r gdfs Hp), Hc. now rewrite app_nil_r.
  - intros Hpass.
    destruct (post_queries_pass (queries locs) (mkClient [] initial_payload [])
                geometry_slot_initial Hpass) as [p Hp].
    rewrite Hp. reflexivity.
Qed.


Lemma adds_nothing_passes (r : response) : adds_nothing r = true -> passes r = true.
Proof.
  unfold adds_nothing, passes. destruct (fatal r); [easy |]. cbn.
  destruct (status_code r =? 200); [| easy].
  now destruct (features r) as [[| f fs] | e].
Qed.

Lemma adds_nothing_contribution (name : pyval) (r : response) :
  adds_nothing r = true -> contribution self name r = [].
Proof.
  unfold adds_nothing, contribution. destruct (fatal r); [easy |]. cbn.
  destruct (status_code r =? 200); [| easy].
  now destruct (features r) as [[| f fs] | e].
Qed.

Lemma contributions_nothing (qs : list query) :
  forall n : nat,
    (forall j q, qs !! j = Some q -> adds_nothing (query_response W (n + j) q) = true) ->
    contributions W self n qs = [].
Proof.
  induction qs as [| q qs IH]; intros n H; [reflexivity |].
  cbn [contributions].
  rewrite (adds_nothing_contribution _ _ (eq_ind _ (fun m => adds_nothing (query_response W m q) = true) (H 0%nat q eq_refl) _ (Nat.add_0_r n))).
  cbn. apply IH. intros j q' Hq'.
  replace (S n + j)%nat with (n + S j)%nat by lia. now apply H.
Qed.

(** C9.  When no response of the run adds a table (each has a status
    other than 200, 400, 401, 500, or is a 200 response without
    features), every pair is requested and the run then fails with the
    [ValueError] of concatenating no tables; the exception raised for a
    400, 401 or 500 response is an [Exception] with a request-failure
    message, which is a different exception. *)
Theorem empty_result_failure (gdf : geoframe) (locs : list (pyval * pyval)) :
  frame_records gdf = Ok locs ->
  (forall j q, queries locs !! j = Some q -> adds_nothing (query_response W j q) = true) ->
  make_post_request W self gdf =
    (map (query_request W) (queries locs), Raise (ValueError "No objects to concatenate")) /\
  (forall (name : pyval) (r : response) (gdfs : list geoframe),
      fatal r = true ->
      check_response self name r gdfs = Raise (Exception (failure_message (status_code r))) /\
      Exception (failure_message (status_code r)) <> ValueError "No objects to concatenate").
Proof.
  intros Hlocs Hnothing. split.
  - rewrite (make_post_request_queries gdf locs Hlocs).
    destruct (post_queries_pass (queries locs) (mkClient [] initial_payload [])
                geometry_slot_initial) as [p Hp].
    { intros j q Hq. apply adds_nothing_passes. now apply Hnothing. }
    rewrite Hp. cbn [sent collected app length].
    now rewrite (contributions_nothing (queries locs) 0%nat Hnothing).
  - intros name r gdfs Hfatal. split; [now apply check_response_fatal | discriminate].
Qed.

End QueryClient.

(** A run with one region: the first endpoint answers 200 with no
    feature, the second answers 400. *)
Lemma spatial_query_failure_policy_witness :
  let W := test_world (fun _ => None)
             [mkResponse 200 (Ok []); mkResponse 400 (Raise JSONDecodeError)]
             (fun _ => Raise CalledProcessError) (fun _ => Ok None) in
  let self := SearchLidarInventory_init [] in
  frame_records one_region = Ok [(PStr "site", PStr "{}")] /\
  snd (make_post_request W self one_region) =
    Raise (Exception "Request failed. 400 - Bad request") /\
  length (fst (make_post_request W self one_region)) = 2%nat.
Proof.
  intros W self.
  assert (Hlocs : frame_records one_region = Ok [(PStr "site", PStr "{}")])
    by (vm_compute; reflexivity).
  split; [exact Hlocs |].
  pose proof (proj1 (spatial_query_failure_policy W self one_region _ Hlocs)) as H.
  specialize (H 1%nat (nth 1 urls "", (PStr "site", PStr "{}")) eq_refl).
  rewrite H.
  - split; reflexivity.
  - intros j q' Hj Hq'. destruct j as [| j]; [| lia].
    cbn in Hq'. injection Hq' as <-. reflexivity.
  - reflexivity.
Defined.

(** A run with one region in which both endpoints answer 200 with no
    feature. *)
Lemma empty_result_failure_witness :
  let W := test_world (fun _ => None)
             [mkResponse 200 (Ok []); mkResponse 200 (Ok [])]
             (fun _ => Raise CalledProcessError) (fun _ => Ok None) in
  let self := SearchLidarInventory_init [] in
  frame_records one_region = Ok [(PStr "site", PStr "{}")] /\
  snd (make_post_request W self one_region) = Raise (ValueError "No objects to concatenate").
Proof.
  intros W self.
  assert (Hlocs : frame_records one_region = Ok [(PStr "site", PStr "{}")])
    by (vm_compute; reflexivity).
  split; [exact Hlocs |].
  rewrite (proj1 (empty_result_failure W self one_region _ Hlocs
    ltac:(intros [| [| j]] q Hq; cbn in Hq; [injection Hq as <-; reflexivity .. | discriminate]))).
  reflexivity.
Defined.

(** ** Geometry normalization *)

Lemma location_frame_unrecognized (W : World) (self : SearchLidarInventory)
    (location : gmap string pyval) :
  unrecognized location = true -> location_frame W self location = Ok None.
Proof.
  unfold unrecognized, location_frame, loc_get.
  destruct (location !! "data_type") as [t |]; [| discriminate]. cbn.
  destruct (eq_str t "coords"), (eq_str t "file"), (eq_str t "bbox"); cbn;
    intros H; try discriminate; reflexivity.
Qed.

Lemma location_frame_Some (W : World) (self : SearchLidarInventory)
    (location : gmap string pyval) (gdf : geoframe) :
  location_frame W self location = Ok (Some gdf) -> recognized location = true.
Proof.
  unfold recognized, location_frame, loc_get.
  destruct (location !! "data_type") as [t |]; [| discriminate]. cbn.
  destruct (eq_str t "coords"), (eq_str t "file"), (eq_str t "bbox"); cbn;
    intros H; try discriminate; reflexivity.
Qed.

Lemma location_frame_codes (W : World) (s1 s2 : SearchLidarInventory)
    (location : gmap string pyval) :
  wgs s1 = wgs s2 -> albers s1 = albers s2 ->
  location_frame W s1 location = location_frame W s2 location.
Proof. intros Hw Ha. unfold location_frame. now rewrite Hw, Ha. Qed.

Lemma locations_loop_codes (W : World) (s1 s2 : SearchLidarInventory)
    (locs : list (gmap string pyval)) :
  wgs s1 = wgs s2 -> albers s1 = albers s2 ->
  forall gdfs, locations_loop W s1 locs gdfs = locations_loop W s2 locs gdfs.
Proof.
  intros Hw Ha. induction locs as [| location locs IH]; intros gdfs; cbn; [reflexivity |].
  rewrite (location_frame_codes W s1 s2 location Hw Ha).
  destruct (location_frame W s2 location) as [r | e]; cbn; [apply IH | reflexivity].
Qed.

(** The loop passes over a region of an unrecognized type. *)
Lemma locations_loop_skip (W : World) (self : SearchLidarInventory)
    (before after : list (gmap string pyval)) (location : gmap string pyval) :
  unrecognized location = true ->
  forall gdfs,
    locations_loop W self (before ++ location :: after) gdfs =
    locations_loop W self (before ++ after) gdfs.
Proof.
  intros Hu. induction before as [| l before IH]; intros gdfs; cbn.
  - now rewrite (location_frame_unrecognized W self location Hu).
  - destruct (location_frame W self l) as [r | e]; cbn; [apply IH | reflexivity].
Qed.

Lemma locations_loop_all_unrecognized (W : World) (self : SearchLidarInventory)
    (locs : list (gmap string pyval)) :
  Forall (fun l => unrecognized l = true) locs ->
  forall gdfs, locations_loop W self locs gdfs = Ok gdfs.
Proof.
  induction 1 as [| l locs Hl _ IH]; intros gdfs; cbn; [reflexivity |].
  rewrite (location_frame_unrecognized W self l Hl). cbn. apply IH.
Qed.

Lemma locations_loop_Ok (W : World) (self : SearchLidarInventory)
    (locs : list (gmap string pyval)) :
  forall gdfs gdfs',
    locations_loop W self locs gdfs = Ok gdfs' ->
    gdfs' = gdfs \/ Exists (fun l => recognized l = true) locs.
Proof.
  induction locs as [| l locs IH]; intros gdfs gdfs'; cbn.
  - intros [= <-]. now left.
  - destruct (location_frame W self l) as [[gdf |] | e] eqn:E; cbn; [| | discriminate].
    + intros _. right. constructor. exact (location_frame_Some W self l gdf E).
    + intros H. destruct (IH _ _ H) as [-> | Hex]; [now left | right; now constructor].
Qed.

Lemma locations_loop_app (W : World) (self : SearchLidarInventory)
    (l1 l2 : list (gmap string pyval)) :
  forall gdfs,
    locations_loop W self (l1 ++ l2) gdfs =
    (let! gdfs1 := locations_loop W self l1 gdfs in locations_loop W self l2 gdfs1).
Proof.
  induction l1 as [| l l1 IH]; intros gdfs; cbn; [reflexivity |].
  destruct (location_frame W self l) as [r | e]; cbn; [apply IH | reflexivity].
Qed.

(** The handler that sets the default buffer cannot run: when the
    dictionary [attributes] exists, it has the key [buffer]. *)
Lemma buffer_default_unreachable (location attributes : gmap string pyval) :
  dict_of_keys location ["name"; "buffer"] ∅ = Ok attributes ->
  exists v, location !! "buffer" = Some v /\ loc_get attributes "buffer" = Ok v.
Proof.
  cbn. unfold loc_get at 1.
  destruct (location !! "name") as [n |]; cbn; [| discriminate].
  unfold loc_get at 1.
  destruct (location !! "buffer") as [v |]; cbn; [| discriminate].
  intros [= <-]. exists v. split; [reflexivity |].
  unfold loc_get. now rewrite lookup_insert_eq.
Qed.

(** C5 (as the source behaves).  A [coords] region that has a name and
    no [buffer] key, reached by the loop, makes [generate_geometries]
    raise [KeyError] on that key: the dictionary [attributes] reads
    [location['buffer']] before the [try] block that would supply the
    default of 50. *)
Theorem coords_without_buffer (W : World) (self : SearchLidarInventory)
    (before rest : list (gmap string pyval)) (location : gmap string pyval)
    (name : pyval) (gdfs : list geoframe) :
  locations self = before ++ location :: rest ->
  locations_loop W self before [] = Ok gdfs ->
  location !! "data_type" = Some (PStr "coords") ->
  location !! "name" = Some name ->
  location !! "buffer" = None ->
  generate_geometries W self = Raise (KeyError (PStr "buffer")).
Proof.
  intros Hl Hbefore Ht Hn Hb. unfold generate_geometries.
  rewrite Hl, locations_loop_app, Hbefore. cbn [bind locations_loop].
  unfold location_frame. rewrite (loc_get_Some _ _ _ Ht). cbn [bind eq_str String.eqb].
  cbn [dict_of_keys]. rewrite (loc_get_Some _ _ _ Hn). cbn [bind].
  rewrite (loc_get_None _ _ Hb). reflexivity.
Qed.

Lemma coords_without_buffer_witness :
  generate_geometries quiet_world (SearchLidarInventory_init [box_region; gage_region]) =
    Raise (KeyError (PStr "buffer")).
Proof.
  assert (Hbox : exists gdfs,
             locations_loop quiet_world (SearchLidarInventory_init [box_region; gage_region])
               [box_region] [] = Ok gdfs).
  { eexists. vm_compute. reflexivity. }
  destruct Hbox as [gdfs Hbox].
  apply (coords_without_buffer quiet_world _ [box_region] [] gage_region (PStr "gage") gdfs);
    [reflexivity | exact Hbox | vm_compute; reflexivity ..].
Defined.

(** C6 (as stated, refuted).  With a [bbox] region and a region of
    type [circle], normalization succeeds and returns tables that hold
    the one row of the [bbox] region. *)
Lemma unrecognized_region_no_error :
  exists gdf_wgs gdf_mercator,
    generate_geometries quiet_world (SearchLidarInventory_init [box_region; circle_region]) =
      Ok (gdf_wgs, gdf_mercator) /\
    unrecognized circle_region = true /\
    map (fun r => properties r !! "name") (rows gdf_wgs) = [Some (PStr "box")] /\
    map (fun r => properties r !! "name") (rows gdf_mercator) = [Some (PStr "box")].
Proof.
  destruct (generate_geometries quiet_world (SearchLidarInventory_init [box_region; circle_region]))
    as [[a b] | e] eqn:E.
  - exists a, b. split; [reflexivity |].
    vm_compute in E. injection E as <- <-. vm_compute. repeat split.
  - vm_compute in E. discriminate.
Qed.

(** C6 (amended).  A region whose [data_type] is none of [coords],
    [file], [bbox] is passed over: normalization does for the list what
    it does for the list without that region. *)
Theorem unrecognized_region_skipped (W : World)
    (before after : list (gmap string pyval)) (location : gmap string pyval) :
  unrecognized location = true ->
  generate_geometries W (SearchLidarInventory_init (before ++ location :: after)) =
  generate_geometries W (SearchLidarInventory_init (before ++ after)).
Proof.
  intros Hu. unfold generate_geometries. cbn [locations SearchLidarInventory_init].
  rewrite (locations_loop_skip W _ before after location Hu).
  rewrite (locations_loop_codes W (SearchLidarInventory_init (before ++ location :: after))
             (SearchLidarInventory_init (before ++ after)) (before ++ after) eq_refl eq_refl).
  reflexivity.
Qed.

Lemma unrecognized_region_skipped_witness :
  unrecognized circle_region = true /\
  generate_geometries quiet_world (SearchLidarInventory_init [box_region; circle_region]) =
  generate_geometries quiet_world (SearchLidarInventory_init [box_region]).
Proof.
  split; [vm_compute; reflexivity |].
  apply (unrecognized_region_skipped quiet_world [box_region] [] circle_region).
  vm_compute; reflexivity.
Defined.

(** C10 (as stated, refuted).  On the empty list of regions the error
    is the [ValueError] of [pd.concat] on an empty list, raised before
    [gdfs[0]] is evaluated; it is not an [IndexError]. *)
Lemma empty_regions_not_IndexError :
  generate_geometries quiet_world (SearchLidarInventory_init []) =
    Raise (ValueError "No objects to concatenate") /\
  generate_geometries quiet_world (SearchLidarInventory_init []) <> Raise IndexError.
Proof. split; [reflexivity | discriminate]. Qed.

(** C10 (amended).  On a list of regions none of which has a recognized
    [data_type] (the empty list among them) [generate_geometries]
    raises the [ValueError] of concatenating no tables, and returns no
    pair of tables; whenever it returns, some region has a recognized
    [data_type]. *)
Theorem generate_geometries_needs_region (W : World) :
  (forall locs : list (gmap string pyval),
     Forall (fun l => unrecognized l = true) locs ->
     generate_geometries W (SearchLidarInventory_init locs) =
       Raise (ValueError "No objects to concatenate")) /\
  generate_geometries W (SearchLidarInventory_init []) =
    Raise (ValueError "No objects to concatenate") /\
  (forall (locs : list (gmap string pyval)) (out : geoframe * geoframe),
     generate_geometries W (SearchLidarInventory_init locs) = Ok out ->
     Exists (fun l => recognized l = true) locs).
Proof.
  split; [| split].
  - intros locs H. unfold generate_geometries. cbn [locations SearchLidarInventory_init].
    now rewrite (locations_loop_all_unrecognized W _ locs H).
  - reflexivity.
  - intros locs out. unfold generate_geometries. cbn [locations SearchLidarInventory_init].
    destruct (locations_loop W _ locs []) as [gdfs | e] eqn:E; cbn [bind]; [| discriminate].
    destruct (locations_loop_Ok W _ locs _ _ E) as [-> | Hex]; [discriminate | intros _; exact Hex].
Qed.

(** ** Link parsing *)

(** X16.  What the two parsers do handle: [None] stays [None]; a value
    that is not a string, a text that does not decode, and a document
    that is not a dictionary all give [nan]. *)
Lemma link_parsing_caught (W : World) :
  _parse_ept_from_usiaei W PNone = Ok PNone /\
  _parse_noaa_lidar_id W PNone = Ok PNone /\
  (forall x, x <> PNone -> is_str x = false ->
     _parse_ept_from_usiaei W x = Ok np_nan /\ _parse_noaa_lidar_id W x = Ok np_nan) /\
  (forall s, json_loads W s = None ->
     _parse_ept_from_usiaei W (PStr s) = Ok np_nan /\ _parse_noaa_lidar_id W (PStr s) = Ok np_nan) /\
  (forall s v, json_loads W s = Some v -> (forall d, v <> PDict d) ->
     _parse_ept_from_usiaei W (PStr s) = Ok np_nan /\ _parse_noaa_lidar_id W (PStr s) = Ok np_nan).
Proof.
  split; [reflexivity |]. split; [reflexivity |]. split; [| split].
  - intros x Hx Hs. split; destruct x; cbn in *; congruence.
  - intros s Hs. cbn. now rewrite Hs.
  - intros s v Hs Hv. cbn. rewrite Hs.
    split; (destruct v; try reflexivity; now destruct (Hv d)).
Qed.

(** C7 (as the source behaves).  When the [Links] text decodes to a
    dictionary without the key [links], both parsers raise [KeyError];
    when the first link is a dictionary without the key [label],
    [_parse_noaa_lidar_id] raises [KeyError]: the handlers catch
    [JSONDecodeError] and [TypeError] only. *)
Theorem link_parsing_KeyError (W : World) (s : string) (d : list (string * pyval)) :
  json_loads W s = Some (PDict d) ->
  (assoc "links" d = None ->
     _parse_ept_from_usiaei W (PStr s) = Raise (KeyError (PStr "links")) /\
     _parse_noaa_lidar_id W (PStr s) = Raise (KeyError (PStr "links"))) /\
  (forall (l : list (string * pyval)) (rest : list pyval),
     assoc "links" d = Some (PList (PDict l :: rest)) ->
     assoc "label" l = None ->
     _parse_noaa_lidar_id W (PStr s) = Raise (KeyError (PStr "label"))).
Proof.
  intros Hs. split.
  - intros Hd. unfold _parse_ept_from_usiaei, _parse_noaa_lidar_id, loads.
    rewrite Hs. cbn. rewrite Hd. split; reflexivity.
  - intros l rest Hd Hl. unfold _parse_noaa_lidar_id, loads.
    rewrite Hs. cbn. rewrite Hd. cbn. rewrite Hl. reflexivity.
Qed.

Lemma link_parsing_KeyError_witness :
  _parse_ept_from_usiaei links_world (PStr ept_only_text) = Ok (PStr "https://example.org/ept.json") /\
  _parse_noaa_lidar_id links_world (PStr ept_only_text) = Raise (KeyError (PStr "label")) /\
  _parse_ept_from_usiaei links_world (PStr "{}") = Raise (KeyError (PStr "links")) /\
  _parse_noaa_lidar_id links_world (PStr "{}") = Raise (KeyError (PStr "links")).
Proof.
  split; [vm_compute; reflexivity |]. split.
  - refine (proj2 (link_parsing_KeyError links_world ept_only_text _ _) _ _ _ _);
      vm_compute; reflexivity.
  - refine (proj1 (link_parsing_KeyError links_world "{}" [] _) _); vm_compute; reflexivity.
Defined.

(** ** CRS resolution *)

(** X22.  What [_get_ept_epsg] does handle: a value that is not a
    string, a failed tool call ([CalledProcessError]), an output that
    does not decode and a dictionary without [summary] all give 4326;
    when the chain succeeds the code that pyproj finds is returned. *)
Lemma epsg_resolution_caught (W : World) :
  (forall url, is_str url = false -> _get_ept_epsg W url = Ok 4326) /\
  (forall u e, check_output W ["pdal"; "info"; "--summary"; u] = Raise e ->
     introspection_error e = true -> _get_ept_epsg W (PStr u) = Ok 4326) /\
  (forall u output, check_output W ["pdal"; "info"; "--summary"; u] = Ok output ->
     json_loads W output = None -> _get_ept_epsg W (PStr u) = Ok 4326) /\
  (forall u output d, check_output W ["pdal"; "info"; "--summary"; u] = Ok output ->
     json_loads W output = Some (PDict d) -> assoc "summary" d = None ->
     _get_ept_epsg W (PStr u) = Ok 4326) /\
  (forall u output wkt n, check_output W ["pdal"; "info"; "--summary"; u] = Ok output ->
     json_loads W output = Some (summary_doc wkt) -> truthy wkt = Ok true ->
     crs_to_epsg W wkt = Ok (Some n) -> _get_ept_epsg W (PStr u) = Ok n).
Proof.
  repeat split.
  - intros url H. now destruct url.
  - intros u e H He. cbn. rewrite H. cbn. now rewrite He.
  - intros u output H Hj. cbn. rewrite H. cbn. now rewrite Hj.
  - intros u output d H Hj Hd. cbn. rewrite H. cbn. rewrite Hj. cbn. now rewrite Hd.
  - intros u output wkt n H Hj Ht Hc. cbn. rewrite H. cbn. rewrite Hj. cbn.
    rewrite Ht. cbn. rewrite Hc. reflexivity.
Qed.

(** C2 (as the source behaves).  With an endpoint for which the pdal
    tool answers: when pyproj finds no EPSG code for the WKT text,
    [int(None)] raises [TypeError]; when pyproj raises, its exception
    goes through; when the answer is a json value that is not a
    dictionary, subscripting it raises [TypeError].  The handler
    catches [CalledProcessError], [JSONDecodeError] and [KeyError] only. *)
Theorem epsg_resolution_raises (W : World) (u output : string) :
  check_output W ["pdal"; "info"; "--summary"; u] = Ok output ->
  (forall wkt, json_loads W output = Some (summary_doc wkt) -> truthy wkt = Ok true ->
     crs_to_epsg W wkt = Ok None -> _get_ept_epsg W (PStr u) = Raise TypeError) /\
  (forall wkt e, json_loads W output = Some (summary_doc wkt) -> truthy wkt = Ok true ->
     crs_to_epsg W wkt = Raise e -> introspection_error e = false ->
     _get_ept_epsg W (PStr u) = Raise e) /\
  (forall v, json_loads W output = Some v -> (forall d, v <> PDict d) ->
     _get_ept_epsg W (PStr u) = Raise TypeError).
Proof.
  intros H. repeat split.
  - intros wkt Hj Ht Hc. cbn. rewrite H. cbn. rewrite Hj. cbn. rewrite Ht. cbn.
    rewrite Hc. reflexivity.
  - intros wkt e Hj Ht Hc He. cbn. rewrite H. cbn. rewrite Hj. cbn. rewrite Ht. cbn.
    rewrite Hc. cbn. now rewrite He.
  - intros v Hj Hv. cbn. rewrite H. cbn. rewrite Hj.
    destruct v; try reflexivity. now destruct (Hv d).
Qed.

Lemma epsg_resolution_raises_witness :
  check_output local_crs_world ["pdal"; "info"; "--summary"; "https://example.org/ept.json"] =
    Ok "summary" /\
  _get_ept_epsg local_crs_world (PStr "https://example.org/ept.json") = Raise TypeError.
Proof.
  split; [reflexivity |].
  refine (proj1 (epsg_resolution_raises local_crs_world "https://example.org/ept.json"
                   "summary" eq_refl) (PStr "LOCAL_CS[]") _ _ _); reflexivity.
Defined.

(** ** Extraction request *)

(** C3 (as the source behaves).  The guard of [fetch_lidar] tests only
    whether the [ept] column has a row.  With a row, whatever its
    value [v] (a null value too), the read stage is built with
    [filename] set to [v] and handed to pdal, and the outcome is
    pdal's; the exception of the guard is raised for a table without
    rows, and a table without the column raises [AttributeError]. *)
Theorem fetch_lidar_null_endpoint (W : World) (v : pyval) (rest : list pyval)
    (frame : geoframe) (out_las : string) :
  fetch_lidar W (mkCollections (Some (v :: rest)) (Some [frame])) (PStr "bounds") false out_las =
    (match total_bounds W frame with
     | (minx, miny, maxx, maxy) =>
         let! out := pdal_pipeline W (json_dumps W (PList
                       [PDict [("type", PStr "readers.ept"); ("filename", v);
                               ("tag", PStr "readdata");
                               ("bounds", PStr (bounds_text W minx miny maxx maxy))]])) in
         match out with (count, arrays, metadata) => Ok (count, arrays, metadata, out_las) end
     end) /\
  fetch_lidar W (mkCollections (Some []) (Some [])) (PStr "bounds") false out_las =
    Raise (Exception "The collection does not have an EPT url. Exiting...") /\
  fetch_lidar W (mkCollections None (Some [frame])) (PStr "bounds") false out_las =
    Raise AttributeError.
Proof.
  split; [| split; reflexivity].
  unfold fetch_lidar. cbn.
  destruct (total_bounds W frame) as [[[minx miny] maxx] maxy]. reflexivity.
Qed.

(** With the endpoint [nan] and a pdal that accepts the pipeline, the
    call returns pdal's result. *)
Example fetch_lidar_nan_runs (frame : geoframe) :
  let W := mkWorld (fun _ => None) (fun _ => "{}") (fun _ => "?") test_Point test_Polygon
             (fun _ _ g => g) (fun g _ => Ok g) (fun _ => Raise (LibraryError "DriverError"))
             (fun _ _ _ => mkResponse 404 (Raise JSONDecodeError))
             (fun _ => Raise CalledProcessError) (fun _ => Ok None)
             (fun _ => (0%float, 0%float, 5%float, 5%float))
             (fun _ => Raise (KeyError (PInt 0))) (fun _ _ => false) true
             (fun _ => Ok (PInt 0, PList [], PDict [])) in
  fetch_lidar W (mkCollections (Some [np_nan]) (Some [frame])) (PStr "bounds") false "out.las" =
    Ok (PInt 0, PList [], PDict [], "out.las").
Proof. reflexivity. Qed.

(** ** Concrete runs *)

Example reconcile_one_source :
  _get_ept_url quiet_world (endpoint_row (PStr "https://a/ept.json") np_nan) =
    Ok (PStr "https://a/ept.json").
Proof. vm_compute. reflexivity. Qed.

Example reconcile_conflict :
  _get_ept_url quiet_world (endpoint_row (PStr "https://a/ept.json") (PStr "https://b/ept.json")) =
    Ok np_nan.
Proof. vm_compute. reflexivity. Qed.

Example search_ID :
  re_search_ID "https://coast.noaa.gov/dataviewer/#/lidar/search/where:ID=8483&x=1" = Some "8483".
Proof. reflexivity. Qed.

Example search_ID_none : re_search_ID "https://coast.noaa.gov/?ID=" = None.
Proof. reflexivity. Qed.

Example square_encoding :
  esri_rings (GPolygon (square 0 0 10 10)) =
    Some [PList [PList [PFloat 0; PFloat 0]; PList [PFloat 10; PFloat 0];
                 PList [PFloat 10; PFloat 10]; PList [PFloat 0; PFloat 10];
                 PList [PFloat 0; PFloat 0]]].
Proof. reflexivity. Qed.

Example point_has_no_encoding :
  convert_to_esri_geometry quiet_world (GPoint (1%float, 2%float)) = PNone.
Proof. reflexivity. Qed.

Example bbox_polygon_is_closed :
  test_Polygon [(PFloat 0, PFloat 0); (PFloat 10, PFloat 0); (PFloat 10, PFloat 10); (PFloat 0, PFloat 10)] =
    Ok (GPolygon (square 0 0 10 10)).
Proof. reflexivity. Qed.

(** * Further properties *)

(** ** Geometry normalization: the two tables *)

Lemma frame_to_crs_Ok (W : World) (epsg : Z) (gdf out : geoframe) :
  frame_to_crs W epsg gdf = Ok out ->
  exists src,
    crs gdf = Some src /\
    out = mkFrame (Some epsg)
            (map (fun r => mkFeature (properties r) (reproject W src epsg (geometry r))) (rows gdf)).
Proof.
  unfold frame_to_crs. destruct (crs gdf) as [src |]; [| discriminate].
  intros [= <-]. now exists src.
Qed.

(** X1.  When [generate_geometries] returns, the first table is in the
    geographic CRS and the second in the query CRS of [self], they have
    the same number of rows, and row by row the geographic geometry is
    the reprojection of the query geometry and the query row has the
    attributes of the geographic row plus [esri_geometry], the encoding
    of its own geometry. *)
Theorem generated_tables_aligned (W : World) (self : SearchLidarInventory)
    (gdf_wgs gdf_mercator : geoframe) :
  generate_geometries W self = Ok (gdf_wgs, gdf_mercator) ->
  crs gdf_wgs = Some (wgs self) /\
  crs gdf_mercator = Some (mercator self) /\
  length (rows gdf_wgs) = length (rows gdf_mercator) /\
  (forall (i : nat) (rm : feature),
     rows gdf_mercator !! i = Some rm ->
     exists rw,
       rows gdf_wgs !! i = Some rw /\
       geometry rw = reproject W (mercator self) (wgs self) (geometry rm) /\
       properties rm =
         <["esri_geometry" := convert_to_esri_geometry W (geometry rm)]> (properties rw)).
Proof.
  unfold generate_geometries.
  destruct (locations_loop W self (locations self) []) as [gdfs | e]; cbn [bind]; [| discriminate].
  destruct (pd_concat gdfs) as [table | e]; cbn [bind]; [| discriminate].
  destruct (list_first gdfs) as [first | e]; cbn [bind]; [| discriminate].
  destruct (frame_to_crs W (mercator self) (mkFrame (crs first) table)) as [m | e] eqn:Em;
    cbn [bind]; [| discriminate].
  apply frame_to_crs_Ok in Em. destruct Em as (src & _ & ->).
  unfold explode, frame_to_crs. cbn [crs rows bind].
  intros [= <- <-]. cbn [crs rows].
  split; [reflexivity |]. split; [reflexivity |]. split.
  - now rewrite !length_map.
  - intros i rm Hi. rewrite list_lookup_fmap in Hi.
    destruct (flat_map _ _ !! i) as [r |] eqn:Er; [| discriminate].
    cbn in Hi. injection Hi as <-.
    eexists. split.
    + rewrite list_lookup_fmap, Er. reflexivity.
    + split; reflexivity.
Qed.

Lemma generated_tables_aligned_witness :
  exists gdf_wgs gdf_mercator,
    generate_geometries quiet_world (SearchLidarInventory_init [box_region]) =
      Ok (gdf_wgs, gdf_mercator) /\
    crs gdf_wgs = Some 4326 /\ crs gdf_mercator = Some 3857 /\
    length (rows gdf_wgs) = length (rows gdf_mercator).
Proof.
  destruct (generate_geometries quiet_world (SearchLidarInventory_init [box_region]))
    as [[a b] | e] eqn:E.
  - exists a, b. split; [reflexivity |].
    destruct (generated_tables_aligned quiet_world _ a b E) as (H1 & H2 & H3 & _).
    repeat split; assumption.
  - vm_compute in E. discriminate.
Defined.

(** ** Spatial query client: every run *)

Section QueryRuns.

Context (W : World) (self : SearchLidarInventory).

Lemma queries_length (locs : list (pyval * pyval)) :
  length (queries locs) = (2 * length locs)%nat.
Proof.
  unfold queries, urls. cbn [flat_map]. rewrite !length_app, !length_map. cbn. lia.
Qed.

(** Whatever the responses, the loop makes the requests of the first
    [k] pairs, in order, and ends normally only after the last pair. *)
Lemma post_queries_prefix (qs : list query) :
  forall st : client_state,
    geometry_slot (payload st) ->
    exists (k : nat) (p : list (string * string)) (c : list geoframe) (r : res unit),
      post_queries W self qs st =
        (mkClient (sent st ++ map (query_request W) (take k qs)) p c, r) /\
      (k <= length qs)%nat /\
      (r = Ok tt -> k = length qs) /\
      (forall e, r = Raise e -> (0 < k)%nat).
Proof.
  induction qs as [| [url [name esri]] qs IH]; intros st Hslot.
  - exists 0%nat, (payload st), (collected st), (Ok tt). cbn.
    rewrite app_nil_r, client_state_eta. repeat split; [lia | discriminate].
  - cbn [post_queries].
    set (p1 := payload_update "geometry" (str_format W esri) (payload st)).
    assert (Hq1 : mkRequest url p1 = query_request W (url, (name, esri))).
    { unfold query_request, p1. cbn [fst snd]. now rewrite Hslot. }
    destruct (check_response self name _ (collected st)) as [gdfs | e].
    + destruct (IH (mkClient (sent st ++ [mkRequest url p1]) p1 gdfs)) as (k & p & c & r & Hr & Hk & Hok & Hraise).
      { cbn. now apply geometry_slot_update. }
      exists (S k), p, c, r. rewrite Hr. cbn [sent take map length].
      rewrite Hq1, <- app_assoc. cbn [app].
      repeat split; [lia | intros H; now rewrite (Hok H) | intros; lia].
    + exists 1%nat, p1, (collected st), (Raise e). cbn [take map length].
      rewrite Hq1. repeat split; [lia | discriminate | intros; lia].
Qed.

(** X2.  In every run of [make_post_request] on a table whose records
    can be read, whatever the service answers, the requests made are
    those of the first [k] (endpoint, region) pairs in order, for some
    [k] of at most twice the number of regions; a run that returns a
    table has made the request of every pair, once. *)
Theorem requests_are_a_prefix (gdf : geoframe) (locs : list (pyval * pyval)) :
  frame_records gdf = Ok locs ->
  exists k : nat,
    fst (make_post_request W self gdf) = map (query_request W) (take k (queries locs)) /\
    (k <= 2 * length locs)%nat /\
    (forall table, snd (make_post_request W self gdf) = Ok table -> k = (2 * length locs)%nat).
Proof.
  intros Hlocs. rewrite (make_post_request_queries W self gdf locs Hlocs).
  destruct (post_queries_prefix (queries locs) (mkClient [] initial_payload [])
              geometry_slot_initial) as (k & p & c & r & Hr & Hk & Hok & _).
  rewrite Hr. exists k. rewrite queries_length in Hk, Hok.
  destruct r as [[] | e]; cbn [fst snd sent app]; repeat split; try assumption.
  - intros table _. now apply Hok.
  - intros table H. discriminate.
Qed.

(** A response on which the status chain raises, after responses that
    pass, ends the loop there with that exception. *)
Lemma post_queries_stop (e : exn) (qs : list query) :
  forall (st : client_state) (k : nat) (q : query),
    geometry_slot (payload st) ->
    qs !! k = Some q ->
    (forall j q', (j < k)%nat -> qs !! j = Some q' ->
       passes (query_response W (length (sent st) + j) q') = true) ->
    (forall gdfs, check_response self (fst (snd q))
                    (query_response W (length (sent st) + k) q) gdfs = Raise e) ->
    exists p,
      post_queries W self qs st =
        (mkClient (sent st ++ map (query_request W) (take (S k) qs)) p
                  (collected st ++ contributions W self (length (sent st)) (take k qs)),
         Raise e).
Proof.
  induction qs as [| [url [name esri]] qs IH]; intros st k q Hslot Hk Hpass Hstop.
  - discriminate.
  - cbn [post_queries].
    set (p1 := payload_update "geometry" (str_format W esri) (payload st)).
    assert (Hr : requests_post W (length (sent st)) url p1 =
                 query_response W (length (sent st)) (url, (name, esri))).
    { unfold query_response, query_request, p1. cbn [fst snd req_data]. now rewrite Hslot. }
    assert (Hq1 : mkRequest url p1 = query_request W (url, (name, esri))).
    { unfold query_request, p1. cbn [fst snd]. now rewrite Hslot. }
    destruct k as [| k].
    + cbn in Hk. injection Hk as <-. rewrite Nat.add_0_r in Hstop. cbn [fst snd] in Hstop.
      rewrite Hr, Hstop.
      exists p1. cbn [take map contributions]. now rewrite Hq1, app_nil_r.
    + cbn in Hk.
      pose proof (Hpass 0%nat _ ltac:(lia) eq_refl) as H0. rewrite Nat.add_0_r in H0.
      rewrite Hr, (check_response_passes self name _ (collected st) H0).
      destruct (IH (mkClient (sent st ++ [mkRequest url p1]) p1
                      (collected st ++ contribution self name
                         (query_response W (length (sent st)) (url, (name, esri)))))
                   k q) as [p Hp].
      * cbn. now apply geometry_slot_update.
      * exact Hk.
      * intros j q' Hj Hq'. cbn [sent]. rewrite length_app. cbn [length].
        replace (length (sent st) + 1 + j)%nat with (length (sent st) + S j)%nat by lia.
        apply Hpass; [lia | exact Hq'].
      * intros gdfs. cbn [sent]. rewrite length_app. cbn [length].
        replace (length (sent st) + 1 + k)%nat with (length (sent st) + S k)%nat by lia.
        apply Hstop.
      * exists p. rewrite Hp. cbn [sent collected]. rewrite length_app. cbn [length].
        rewrite Nat.add_1_r. cbn [take map contributions fst snd].
        rewrite Hq1. now rewrite <- !app_assoc.
Qed.

(** X3.  A response with status 200 whose body does not read as a
    feature table (the decoding or [features] lookup raises [e]) ends
    the run with [e] right after that request, when the responses
    before it let the loops go on: the error is not caught, and the
    tables collected so far are not returned. *)
Theorem unreadable_body_aborts (gdf : geoframe) (locs : list (pyval * pyval))
    (k : nat) (q : query) (e : exn) :
  frame_records gdf = Ok locs ->
  queries locs !! k = Some q ->
  (forall j q', (j < k)%nat -> queries locs !! j = Some q' ->
     passes (query_response W j q') = true) ->
  status_code (query_response W k q) = 200 ->
  features (query_response W k q) = Raise e ->
  make_post_request W self gdf =
    (map (query_request W) (take (S k) (queries locs)), Raise e).
Proof.
  intros Hlocs Hk Hpass H200 Hbody.
  rewrite (make_post_request_queries W self gdf locs Hlocs).
  destruct (post_queries_stop e (queries locs) (mkClient [] initial_payload []) k q
              geometry_slot_initial Hk Hpass) as [p Hp].
  { intros gdfs. cbn [sent length Nat.add]. unfold check_response.
    rewrite H200, Hbody. reflexivity. }
  rewrite Hp. reflexivity.
Qed.

End QueryRuns.

Lemma requests_are_a_prefix_witness :
  exists k : nat,
    fst (make_post_request quiet_world (SearchLidarInventory_init []) one_region) =
      map (query_request quiet_world) (take k (queries [(PStr "site", PStr "{}")])) /\
    (k <= 2)%nat.
Proof.
  destruct (requests_are_a_prefix quiet_world (SearchLidarInventory_init []) one_region
              [(PStr "site", PStr "{}")]) as (k & H1 & H2 & _).
  - vm_compute. reflexivity.
  - exists k. split; [exact H1 | exact H2].
Defined.

(** A run in which the first endpoint answers 200 with a body that is
    not json. *)
Lemma unreadable_body_aborts_witness :
  make_post_request
    (test_world (fun _ => None) [mkResponse 200 (Raise JSONDecodeError)]
       (fun _ => Raise CalledProcessError) (fun _ => Ok None))
    (SearchLidarInventory_init []) one_region =
  ([query_request quiet_world (nth 0 urls "", (PStr "site", PStr "{}"))], Raise JSONDecodeError).
Proof.
  refine (unreadable_body_aborts _ _ one_region [(PStr "site", PStr "{}")] 0%nat
            (nth 0 urls "", (PStr "site", PStr "{}")) JSONDecodeError _ _ _ _ _).
  - vm_compute. reflexivity.
  - reflexivity.
  - intros j q' Hj. lia.
  - reflexivity.
  - reflexivity.
Defined.

Lemma Forall_map_all {A B : Type} (P : B -> Prop) (f : A -> B) (l : list A) :
  (forall a, P (f a)) -> Forall P (map f l).
Proof. intros H. induction l as [| a l IH]; cbn; constructor; auto. Qed.

Section QueryProvenance.

Context (W : World) (self : SearchLidarInventory).

Lemma check_response_collected (names : list pyval) (name : pyval) (r : response)
    (gdfs gdfs' : list geoframe) :
  In name names ->
  Forall (collected_table self names) gdfs ->
  check_response self name r gdfs = Ok gdfs' ->
  Forall (collected_table self names) gdfs'.
Proof.
  intros Hin Hall. unfold check_response.
  destruct (status_code r =? 200).
  - destruct (features r) as [[| f fs] | e]; cbn [bind]; [intros [= <-]; exact Hall | | discriminate].
    intros [= <-]. apply Forall_app. split; [exact Hall |].
    constructor; [| constructor].
    split; [reflexivity |]. split; [discriminate |].
    cbn [rows].
    constructor; [| apply Forall_map_all; intros x];
      (exists name; cbn; split; [apply lookup_insert_eq | exact Hin]).
  - destruct (status_code r =? 400); [discriminate |].
    destruct (status_code r =? 401); [discriminate |].
    destruct (status_code r =? 500); [discriminate |].
    intros [= <-]. exact Hall.
Qed.

Lemma post_queries_collected (names : list pyval) (qs : list query) :
  forall (st st' : client_state) (r : res unit),
    Forall (fun q => In (fst (snd q)) names) qs ->
    Forall (collected_table self names) (collected st) ->
    post_queries W self qs st = (st', r) ->
    Forall (collected_table self names) (collected st').
Proof.
  induction qs as [| [url [name esri]] qs IH]; intros st st' r Hqs Hall; cbn [post_queries].
  - intros [= <- _]. exact Hall.
  - inversion Hqs as [| ? ? Hname Hrest]; subst. cbn [fst snd] in Hname.
    destruct (check_response self name _ (collected st)) as [gdfs | e] eqn:E.
    + apply IH; [exact Hrest |]. cbn [collected].
      exact (check_response_collected names name _ _ _ Hname Hall E).
    + intros [= <- _]. exact Hall.
Qed.

Lemma queries_names (locs : list (pyval * pyval)) :
  Forall (fun q : query => In (fst (snd q)) (map fst locs)) (queries locs).
Proof.
  unfold queries, urls. cbn [flat_map]. rewrite app_nil_r.
  apply Forall_app. split; apply Forall_forall; intros q Hq;
    apply list_elem_of_In, in_map_iff in Hq; destruct Hq as (l & <- & Hl);
    cbn; now apply in_map.
Qed.

Lemma concat_rows_nonempty (names : list pyval) (gdfs : list geoframe) :
  gdfs <> [] ->
  Forall (collected_table self names) gdfs ->
  concat (map rows gdfs) <> [] /\ Forall (tagged_by names) (concat (map rows gdfs)).
Proof.
  intros Hne Hall. split.
  - destruct gdfs as [| g gdfs]; [congruence |].
    inversion Hall as [| ? ? (_ & Hg & _) _]; subst. cbn.
    destruct (rows g); [congruence | discriminate].
  - induction Hall as [| g gdfs (_ & _ & Hg) _ IH]; cbn; [constructor |].
    apply Forall_app. split; [exact Hg |].
    destruct gdfs as [| g' gdfs']; [constructor | apply IH; discriminate].
Qed.

(** X4.  A table returned by [make_post_request] is in the geographic
    CRS of [self], has at least one row, and each of its rows carries
    in [name] the name of one of the regions that were queried; so a
    run never returns an empty table. *)
Theorem returned_table_is_tagged (gdf table : geoframe) (locs : list (pyval * pyval)) :
  frame_records gdf = Ok locs ->
  snd (make_post_request W self gdf) = Ok table ->
  crs table = Some (wgs self) /\
  rows table <> [] /\
  Forall (tagged_by (map fst locs)) (rows table).
Proof.
  intros Hlocs. rewrite (make_post_request_queries W self gdf locs Hlocs).
  destruct (post_queries W self (queries locs) (mkClient [] initial_payload []))
    as [st [[] | e]] eqn:E; cbn [snd]; [| discriminate].
  pose proof (post_queries_collected (map fst locs) (queries locs)
                (mkClient [] initial_payload []) st (Ok tt)
                (queries_names locs) (List.Forall_nil _) E) as Hall.
  unfold pd_concat. destruct (collected st) as [| g gdfs] eqn:Ec; cbn [bind]; [discriminate |].
  intros [= <-]. cbn [crs rows]. split; [reflexivity |].
  apply (concat_rows_nonempty (map fst locs) (g :: gdfs)); [discriminate | exact Hall].
Qed.

End QueryProvenance.

(** A run in which the first endpoint answers with one feature and
    the second with none. *)
Lemma returned_table_is_tagged_witness :
  let W := test_world (fun _ => None)
             [mkResponse 200 (Ok [mkFeature ∅ (GPolygon (square 0 0 1 1))]);
              mkResponse 200 (Ok [])]
             (fun _ => Raise CalledProcessError) (fun _ => Ok None) in
  exists table,
    snd (make_post_request W (SearchLidarInventory_init []) one_region) = Ok table /\
    crs table = Some 4326 /\ rows table <> [] /\
    Forall (tagged_by [PStr "site"]) (rows table).
Proof.
  intros W.
  destruct (snd (make_post_request W (SearchLidarInventory_init []) one_region))
    as [table | e] eqn:E.
  - exists table. split; [reflexivity |].
    apply (returned_table_is_tagged W (SearchLidarInventory_init []) one_region table
             [(PStr "site", PStr "{}")]); [vm_compute; reflexivity | exact E].
  - vm_compute in E. discriminate.
Defined.

(** ** From normalization to the query client *)

Ltac step_bind :=
  match goal with
  | |- bind ?m _ = _ -> _ =>
      let E := fresh "E" in destruct m eqn:E; cbn [bind]; [| discriminate]
  end.

Lemma frame_to_crs_properties (W : World) (epsg : Z) (gdf out : geoframe) :
  frame_to_crs W epsg gdf = Ok out ->
  map properties (rows out) = map properties (rows gdf).
Proof.
  intros H. apply frame_to_crs_Ok in H. destruct H as (src & _ & ->). cbn [rows].
  rewrite map_map. reflexivity.
Qed.

Lemma map_res_properties (f : feature -> res feature) (l l' : list feature) :
  (forall r r', f r = Ok r' -> properties r' = properties r) ->
  map_res f l = Ok l' ->
  map properties l' = map properties l.
Proof.
  intros Hf. revert l'. induction l as [| r l IH]; intros l'; cbn [map_res].
  - intros [= <-]. reflexivity.
  - destruct (f r) as [r' |] eqn:Er; cbn [bind]; [| discriminate].
    destruct (map_res f l) as [rs |]; cbn [bind]; [| discriminate].
    intros [= <-]. cbn. now rewrite (Hf r r' Er), (IH rs eq_refl).
Qed.

Lemma frame_buffer_properties (W : World) (gdf out : geoframe) (distance : pyval) :
  frame_buffer W gdf distance = Ok out ->
  map properties (rows out) = map properties (rows gdf).
Proof.
  unfold frame_buffer. step_bind. intros [= <-]. cbn [rows].
  assert (Hf : forall r r' : feature,
             (let! g := geom_buffer W (geometry r) distance in
              Ok (mkFeature (properties r) g)) = Ok r' ->
             properties r' = properties r).
  { intros r r'. destruct (geom_buffer W (geometry r) distance); cbn [bind];
      [intros [= <-]; reflexivity | discriminate]. }
  exact (map_res_properties _ _ _ Hf E).
Qed.

Lemma has_name_properties (l l' : list feature) :
  map properties l' = map properties l -> Forall has_name l -> Forall has_name l'.
Proof.
  revert l'. induction l as [| r l IH]; intros [| r' l']; cbn; try discriminate.
  - constructor.
  - intros [= Hr Hl] H. inversion H; subst. constructor; [| now apply IH].
    unfold has_name in *. now rewrite Hr.
Qed.

Lemma location_frame_named (W : World) (self : SearchLidarInventory)
    (location : gmap string pyval) (gdf : geoframe) :
  location_frame W self location = Ok (Some gdf) -> Forall has_name (rows gdf).
Proof.
  unfold location_frame. step_bind.
  destruct (eq_str a "coords"); [| destruct (eq_str a "file"); [| destruct (eq_str a "bbox")]].
  - do 7 step_bind. intros [= <-].
    apply frame_to_crs_properties in E4, E6. apply frame_buffer_properties in E5.
    eapply has_name_properties; [exact E6 |].
    eapply has_name_properties; [exact E5 |].
    eapply has_name_properties; [exact E4 |].
    cbn [rows]. constructor; [| constructor]. unfold has_name. cbn [properties].
    cbn [dict_of_keys] in E0. revert E0. do 2 step_bind. intros [= <-].
    rewrite lookup_insert_ne by discriminate. rewrite lookup_insert_eq. eauto.
  - do 3 step_bind. intros [= <-]. cbn [rows].
    apply Forall_map_all. intros r. unfold has_name. cbn [properties].
    rewrite lookup_singleton_eq. eauto.
  - do 7 step_bind. intros [= <-]. cbn [rows].
    constructor; [| constructor]. unfold has_name. cbn [properties].
    cbn [dict_of_keys] in E1. revert E1. step_bind. intros [= <-].
    rewrite lookup_insert_eq. eauto.
  - discriminate.
Qed.

Lemma locations_loop_named (W : World) (self : SearchLidarInventory)
    (locs : list (gmap string pyval)) :
  forall gdfs gdfs',
    Forall (fun g => Forall has_name (rows g)) gdfs ->
    locations_loop W self locs gdfs = Ok gdfs' ->
    Forall (fun g => Forall has_name (rows g)) gdfs'.
Proof.
  induction locs as [| l locs IH]; intros gdfs gdfs' Hall; cbn [locations_loop].
  - intros [= <-]. exact Hall.
  - destruct (location_frame W self l) as [[gdf |] | e] eqn:E; cbn [bind]; [| | discriminate].
    + apply IH. apply Forall_app. split; [exact Hall |].
      constructor; [exact (location_frame_named W self l gdf E) | constructor].
    + apply IH. exact Hall.
Qed.

Lemma concat_named (gdfs : list geoframe) :
  Forall (fun g => Forall has_name (rows g)) gdfs ->
  Forall has_name (concat (map rows gdfs)).
Proof.
  induction 1 as [| g gdfs Hg _ IH]; cbn; [constructor |].
  apply Forall_app. now split.
Qed.

Lemma map_res_total {A B : Type} (f : A -> res B) (g : A -> B) (l : list A) :
  Forall (fun a => f a = Ok (g a)) l -> map_res f l = Ok (map g l).
Proof.
  induction 1 as [| a l Ha _ IH]; cbn [map_res map]; [reflexivity |].
  now rewrite Ha, IH.
Qed.

Lemma explode_named (gdf : geoframe) :
  Forall has_name (rows gdf) -> Forall has_name (rows (explode gdf)).
Proof.
  unfold explode. cbn [rows]. induction 1 as [| r l Hr _ IH]; cbn [flat_map]; [constructor |].
  apply Forall_app. split; [| exact IH].
  apply Forall_map_all. intros g. exact Hr.
Qed.

(** The rows of the query table are rows that have a name, each with
    the encoding of its geometry added. *)
Lemma generated_query_rows (W : World) (self : SearchLidarInventory)
    (gdf_wgs gdf_mercator : geoframe) :
  generate_geometries W self = Ok (gdf_wgs, gdf_mercator) ->
  exists l : list feature,
    Forall has_name l /\
    rows gdf_mercator =
      map (fun r => mkFeature
             (<["esri_geometry" := convert_to_esri_geometry W (geometry r)]> (properties r))
             (geometry r)) l.
Proof.
  unfold generate_geometries.
  destruct (locations_loop W self (locations self) []) as [gdfs | e] eqn:El; cbn [bind]; [| discriminate].
  destruct (pd_concat gdfs) as [table | e] eqn:Ec; cbn [bind]; [| discriminate].
  destruct (list_first gdfs) as [first | e]; cbn [bind]; [| discriminate].
  destruct (frame_to_crs W (mercator self) (mkFrame (crs first) table)) as [m | e] eqn:Em;
    cbn [bind]; [| discriminate].
  destruct (frame_to_crs W (wgs self) (explode m)) as [w | e]; cbn [bind]; [| discriminate].
  intros [= _ <-]. cbn [rows]. exists (rows (explode m)). split; [| reflexivity].
  apply explode_named.
  apply frame_to_crs_properties in Em. cbn [rows] in Em.
  eapply has_name_properties; [exact Em |].
  assert (Ht : table = concat (map rows gdfs)).
  { unfold pd_concat in Ec. destruct gdfs; [discriminate | now injection Ec]. }
  rewrite Ht. apply concat_named.
  exact (locations_loop_named W self _ _ _ (List.Forall_nil _) El).
Qed.

(** X5.  The query table that [generate_geometries] returns can always
    be read by [make_post_request]: every row has a [name] and an
    [esri_geometry], the encoding of its geometry.  So in
    [get_lidar_collections] the requests are those of the first [k]
    pairs of endpoints and rows of that table, [k] at most twice the
    number of rows, and a run that returns has requested every pair and
    returns the geographic table of [generate_geometries] unchanged. *)
Theorem lidar_collections_requests (W : World) (self : SearchLidarInventory)
    (gdf_wgs gdf_mercator : geoframe) :
  generate_geometries W self = Ok (gdf_wgs, gdf_mercator) ->
  let locs := map (fun r => (row_name r, convert_to_esri_geometry W (geometry r)))
                  (rows gdf_mercator) in
  frame_records gdf_mercator = Ok locs /\
  exists k : nat,
    fst (get_lidar_collections W self) = map (query_request W) (take k (queries locs)) /\
    (k <= 2 * length (rows gdf_mercator))%nat /\
    (forall out, snd (get_lidar_collections W self) = Ok out ->
       fst out = gdf_wgs /\ k = (2 * length (rows gdf_mercator))%nat).
Proof.
  intros Hg locs.
  assert (Hrec : frame_records gdf_mercator = Ok locs).
  { destruct (generated_query_rows W self _ _ Hg) as (l & Hl & Hrows).
    unfold frame_records, locs. apply map_res_total. rewrite Hrows. clear Hrows.
    induction Hl as [| r0 l [n Hn] _ IH]; cbn [map]; [constructor |].
    constructor; [| exact IH].
    unfold loc_get, row_name. cbn [properties geometry].
    rewrite lookup_insert_ne by discriminate. rewrite Hn. cbn [bind default].
    now rewrite lookup_insert_eq. }
  split; [exact Hrec |].
  unfold get_lidar_collections. rewrite Hg.
  rewrite (make_post_request_queries W self gdf_mercator locs Hrec).
  destruct (post_queries_prefix W self (queries locs) (mkClient [] initial_payload [])
              geometry_slot_initial) as (k & p & c & r & Hr & Hk & Hok & _).
  rewrite Hr. exists k. rewrite queries_length in Hk, Hok.
  assert (Hlen : length locs = length (rows gdf_mercator)) by (unfold locs; apply length_map).
  rewrite Hlen in Hk, Hok.
  cbn [sent collected app].
  destruct r as [[] | e].
  - destruct (pd_concat c) as [table | e]; cbn [bind fst snd];
      (split; [reflexivity |]; split; [exact Hk |]; intros out H).
    + injection H as <-. split; [reflexivity | now apply Hok].
    + discriminate.
  - cbn [fst snd]. split; [reflexivity |]. split; [exact Hk |]. intros out H. discriminate.
Qed.

Lemma lidar_collections_requests_witness :
  exists gdf_wgs gdf_mercator,
    generate_geometries quiet_world (SearchLidarInventory_init [box_region]) =
      Ok (gdf_wgs, gdf_mercator) /\
    frame_records gdf_mercator =
      Ok (map (fun r => (row_name r, convert_to_esri_geometry quiet_world (geometry r)))
              (rows gdf_mercator)).
Proof.
  destruct (generate_geometries quiet_world (SearchLidarInventory_init [box_region]))
    as [[a b] | e] eqn:E.
  - exists a, b. split; [reflexivity |].
    exact (proj1 (lidar_collections_requests quiet_world _ a b E)).
  - vm_compute in E. discriminate.
Defined.

(** ** Geometry normalization: one region *)

Lemma generate_geometries_raise_at (W : World) (self : SearchLidarInventory)
    (before rest : list (gmap string pyval)) (location : gmap string pyval)
    (gdfs : list geoframe) (e : exn) :
  locations self = before ++ location :: rest ->
  locations_loop W self before [] = Ok gdfs ->
  location_frame W self location = Raise e ->
  generate_geometries W self = Raise e.
Proof.
  intros Hl Hbefore He. unfold generate_geometries.
  rewrite Hl, locations_loop_app, Hbefore. cbn [bind locations_loop].
  now rewrite He.
Qed.

(** X6.  A region that the loop reaches and that lacks a key makes
    [generate_geometries] raise [KeyError] on that key: [data_type] for
    any region; [value] for a [file] or [bbox] region; [name] for a
    [coords] region, and for a [bbox] region that has a [value]. *)
Theorem region_missing_key (W : World) (self : SearchLidarInventory)
    (before rest : list (gmap string pyval)) (location : gmap string pyval)
    (gdfs : list geoframe) :
  locations self = before ++ location :: rest ->
  locations_loop W self before [] = Ok gdfs ->
  (location !! "data_type" = None ->
     generate_geometries W self = Raise (KeyError (PStr "data_type"))) /\
  (forall t, location !! "data_type" = Some t ->
     eq_str t "file" || eq_str t "bbox" = true ->
     location !! "value" = None ->
     generate_geometries W self = Raise (KeyError (PStr "value"))) /\
  (location !! "data_type" = Some (PStr "coords") ->
     location !! "name" = None ->
     generate_geometries W self = Raise (KeyError (PStr "name"))) /\
  (forall v, location !! "data_type" = Some (PStr "bbox") ->
     location !! "value" = Some v ->
     location !! "name" = None ->
     generate_geometries W self = Raise (KeyError (PStr "name"))).
Proof.
  intros Hl Hbefore.
  pose proof (generate_geometries_raise_at W self before rest location gdfs) as Hat.
  repeat split.
  - intros Ht. apply (Hat _ Hl Hbefore). unfold location_frame.
    now rewrite (loc_get_None _ _ Ht).
  - intros t Ht Hfb Hv. apply (Hat _ Hl Hbefore). unfold location_frame.
    rewrite (loc_get_Some _ _ _ Ht). cbn [bind].
    destruct t; cbn in Hfb; try discriminate.
    cbn [eq_str].
    destruct (String.eqb_spec s "coords") as [-> | _]; [discriminate |].
    destruct (String.eqb s "file"); [now rewrite (loc_get_None _ _ Hv) |].
    destruct (String.eqb s "bbox"); [now rewrite (loc_get_None _ _ Hv) | discriminate].
  - intros Ht Hn. apply (Hat _ Hl Hbefore). unfold location_frame.
    rewrite (loc_get_Some _ _ _ Ht). cbn [bind eq_str String.eqb dict_of_keys].
    now rewrite (loc_get_None _ _ Hn).
  - intros v Ht Hv Hn. apply (Hat _ Hl Hbefore). unfold location_frame.
    rewrite (loc_get_Some _ _ _ Ht). cbn [bind eq_str String.eqb].
    rewrite (loc_get_Some _ _ _ Hv). cbn [bind dict_of_keys].
    now rewrite (loc_get_None _ _ Hn).
Qed.

Lemma region_missing_key_witness :
  generate_geometries quiet_world
    (SearchLidarInventory_init [box_region; delete "data_type" gage_region]) =
    Raise (KeyError (PStr "data_type")).
Proof.
  assert (Hbox : exists gdfs,
             locations_loop quiet_world
               (SearchLidarInventory_init [box_region; delete "data_type" gage_region])
               [box_region] [] = Ok gdfs).
  { eexists. vm_compute. reflexivity. }
  destruct Hbox as [gdfs Hbox].
  apply (proj1 (region_missing_key quiet_world
                  (SearchLidarInventory_init [box_region; delete "data_type" gage_region])
                  [box_region] [] (delete "data_type" gage_region) gdfs eq_refl Hbox)).
  vm_compute. reflexivity.
Defined.

(** X7.  A [bbox] region with a name: a [value] list of fewer than four
    elements raises [IndexError] before shapely is called; a list of
    at least four gives one row in the geographic CRS whose only
    attribute is the name and whose geometry is the polygon that
    shapely builds from the corners [(x0, y0), (x1, y0), (x1, y1),
    (x0, y1)] of the first four elements, in this order. *)
Theorem bbox_region_frame (W : World) (self : SearchLidarInventory)
    (location : gmap string pyval) (name : pyval) :
  location !! "data_type" = Some (PStr "bbox") ->
  location !! "name" = Some name ->
  (forall vs : list pyval,
     location !! "value" = Some (PList vs) -> (length vs < 4)%nat ->
     locations_loop W self [location] [] = Raise IndexError) /\
  (forall (x0 y0 x1 y1 : pyval) (more : list pyval),
     location !! "value" = Some (PList (x0 :: y0 :: x1 :: y1 :: more)) ->
     locations_loop W self [location] [] =
       (let! pg := shapely_Polygon W [(x0, y0); (x1, y0); (x1, y1); (x0, y1)] in
        Ok [mkFrame (Some (wgs self)) [mkFeature (<["name" := name]> ∅) pg]])).
Proof.
  intros Ht Hn. split.
  - intros vs Hv Hlen. cbn [locations_loop]. unfold location_frame.
    rewrite (loc_get_Some _ _ _ Ht). cbn [bind eq_str String.eqb].
    rewrite (loc_get_Some _ _ _ Hv). cbn [bind dict_of_keys].
    rewrite (loc_get_Some _ _ _ Hn). cbn [bind].
    destruct vs as [| a [| b [| c [| d vs]]]]; cbn in Hlen; try lia; reflexivity.
  - intros x0 y0 x1 y1 more Hv. cbn [locations_loop]. unfold location_frame.
    rewrite (loc_get_Some _ _ _ Ht). cbn [bind eq_str String.eqb].
    rewrite (loc_get_Some _ _ _ Hv). cbn [bind dict_of_keys].
    rewrite (loc_get_Some _ _ _ Hn). cbn [bind getitem_int nth_error].
    destruct (shapely_Polygon W _); reflexivity.
Qed.

Lemma bbox_region_frame_witness :
  locations_loop quiet_world (SearchLidarInventory_init []) [box_region] [] =
    Ok [mkFrame (Some 4326)
          [mkFeature (<["name" := PStr "box"]> ∅) (GPolygon (square 0 0 10 10))]].
Proof.
  refine (proj2 (bbox_region_frame quiet_world (SearchLidarInventory_init []) box_region
                   (PStr "box") _ _) (PFloat 0) (PFloat 0) (PFloat 10) (PFloat 10) [] _);
    vm_compute; reflexivity.
Defined.

(** X8.  A [coords] region with a name, a [buffer] and a [value]: the
    point that shapely builds from the value is reprojected from the
    geographic to the equal-area CRS, buffered there by the region's
    own [buffer] value, and reprojected back; the row keeps [name] and
    [buffer].  The value 50 is not used. *)
Theorem coords_region_frame (W : World) (self : SearchLidarInventory)
    (location : gmap string pyval) (name buffer value : pyval) :
  location !! "data_type" = Some (PStr "coords") ->
  location !! "name" = Some name ->
  location !! "buffer" = Some buffer ->
  location !! "value" = Some value ->
  locations_loop W self [location] [] =
    (let! point := shapely_Point W value in
     let! disc := geom_buffer W (reproject W (wgs self) (albers self) point) buffer in
     Ok [mkFrame (Some (wgs self))
           [mkFeature (<["buffer" := buffer]> (<["name" := name]> ∅))
              (reproject W (albers self) (wgs self) disc)]]).
Proof.
  intros Ht Hn Hb Hv. cbn [locations_loop]. unfold location_frame.
  rewrite (loc_get_Some _ _ _ Ht). cbn [bind dict_of_keys].
  replace (eq_str (PStr "coords") "coords") with true by reflexivity. lazy beta iota.
  rewrite (loc_get_Some _ _ _ Hn). cbn [bind].
  rewrite (loc_get_Some _ _ _ Hb). cbn [bind].
  rewrite (loc_get_Some _ _ _ Hv). cbn [bind].
  destruct (shapely_Point W value) as [point | e]; cbn [bind]; [| reflexivity].
  unfold loc_get at 1. rewrite lookup_insert_eq. cbn [try_except bind].
  unfold frame_to_crs, frame_buffer. cbn [crs rows map map_res bind properties geometry].
  destruct (geom_buffer W _ buffer) as [disc | e];
    cbn [crs rows map map_res bind properties geometry]; reflexivity.
Qed.

Lemma coords_region_frame_witness :
  exists gdf,
    locations_loop quiet_world (SearchLidarInventory_init [])
      [<["buffer" := PInt 20]> gage_region] [] = Ok [gdf] /\
    map (fun r => properties r !! "buffer") (rows gdf) = [Some (PInt 20)].
Proof.
  eexists. split.
  - refine (coords_region_frame quiet_world (SearchLidarInventory_init [])
              (<["buffer" := PInt 20]> gage_region) (PStr "gage") (PInt 20)
              (PList [PFloat (-77); PFloat 39]) _ _ _ _); vm_compute; reflexivity.
  - vm_compute. reflexivity.
Defined.

(** ** Link parsing on well-formed documents *)

Lemma ept_comprehension (items : list pyval) :
  forallb ept_entry items = true ->
  comprehension
    (fun l => let! t := dict_get l "linktype" in Ok (eq_str t "EPT Link"))
    (fun l => getitem l "link") items = Ok (ept_links items).
Proof.
  induction items as [| l items IH]; cbn [forallb comprehension]; [reflexivity |].
  intros H. apply andb_prop in H. destruct H as [Hl Hitems].
  cbn [ept_links].
  destruct l; cbn in Hl; try discriminate.
  cbn [dict_get bind is_ept_link link_of getitem].
  destruct (eq_str (default PNone (assoc "linktype" d)) "EPT Link").
  - apply bool_decide_eq_true in Hl. destruct Hl as [v Hv]. rewrite Hv. cbn [bind].
    now rewrite (IH Hitems).
  - now rewrite (IH Hitems).
Qed.

(** X9.  When the [Links] text decodes to a dictionary whose [links]
    is a list of dictionaries, each with a [link] if its [linktype] is
    [EPT Link], [_parse_ept_from_usiaei] returns the [link] of the
    first entry of that type, and [nan] when there is none. *)
Theorem ept_link_first_match (W : World) (s : string) (d : list (string * pyval))
    (items : list pyval) :
  json_loads W s = Some (PDict d) ->
  assoc "links" d = Some (PList items) ->
  forallb ept_entry items = true ->
  _parse_ept_from_usiaei W (PStr s) = Ok (default np_nan (head (ept_links items))).
Proof.
  intros Hs Hd Hitems. unfold _parse_ept_from_usiaei, loads. rewrite Hs.
  cbn [bind getitem]. rewrite Hd. cbn [bind py_iter].
  rewrite (ept_comprehension items Hitems). cbn [bind try_except].
  now destruct (ept_links items).
Qed.

Lemma ept_link_first_match_witness :
  _parse_ept_from_usiaei links_world (PStr ept_only_text) =
    Ok (PStr "https://example.org/ept.json").
Proof.
  exact (ept_link_first_match links_world ept_only_text
           [("links", PList [PDict [("linktype", PStr "EPT Link");
                                    ("link", PStr "https://example.org/ept.json")]])]
           [PDict [("linktype", PStr "EPT Link");
                   ("link", PStr "https://example.org/ept.json")]]
           eq_refl eq_refl eq_refl).
Defined.








(** X12.  When the first entry of the [links] list is not a dictionary
    (a string, a number, [null], a list), [_parse_ept_from_usiaei]
    raises [AttributeError], which it does not catch, while
    [_parse_noaa_lidar_id] returns [nan]: subscripting the entry raises
    [TypeError], which it catches. *)
Theorem link_entry_not_a_dictionary (W : World) (s : string) (d : list (string * pyval))
    (v : pyval) (rest : list pyval) :
  json_loads W s = Some (PDict d) ->
  assoc "links" d = Some (PList (v :: rest)) ->
  (forall d', v <> PDict d') ->
  _parse_ept_from_usiaei W (PStr s) = Raise AttributeError /\
  _parse_noaa_lidar_id W (PStr s) = Ok np_nan.
Proof.
  intros Hs Hd Hv. unfold _parse_ept_from_usiaei, _parse_noaa_lidar_id, loads.
  rewrite Hs. cbn [bind getitem]. rewrite Hd. cbn [bind py_iter comprehension].
  destruct v; try (split; reflexivity). now destruct (Hv d0).
Qed.

Lemma link_entry_not_a_dictionary_witness :
  _parse_ept_from_usiaei noaa_world (PStr string_entry_text) = Raise AttributeError /\
  _parse_noaa_lidar_id noaa_world (PStr string_entry_text) = Ok np_nan.
Proof.
  refine (link_entry_not_a_dictionary noaa_world string_entry_text
            [("links", PList [PStr "see also"])] (PStr "see also") [] eq_refl eq_refl _).
  intros d'. discriminate.
Defined.

(** ** Endpoint reconciliation: order, errors, other values *)

(** X13.  Reconciliation has no preferred source: for endpoint cells
    that are strings or null values, exchanging the two columns gives
    the same result. *)
Theorem reconciliation_is_symmetric (W : World) (a b : pyval) :
  endpoint_cell a = true -> endpoint_cell b = true ->
  _get_ept_url W (endpoint_row a b) = _get_ept_url W (endpoint_row b a).
Proof.
  intros Ca Cb.
  rewrite (get_ept_url_cells W _ a b (endpoint_row_usiaei _ _) (endpoint_row_noaa _ _) Ca Cb).
  rewrite (get_ept_url_cells W _ b a (endpoint_row_usiaei _ _) (endpoint_row_noaa _ _) Cb Ca).
  destruct a, b; cbn in Ca, Cb; try discriminate; try reflexivity.
  destruct (String.eqb_spec s s0) as [-> | Hne].
  - now rewrite String.eqb_refl.
  - apply not_eq_sym, String.eqb_neq in Hne. now rewrite Hne.
Qed.

Lemma reconciliation_is_symmetric_witness :
  _get_ept_url quiet_world (endpoint_row (PStr "https://a/ept.json") PNone) =
  _get_ept_url quiet_world (endpoint_row PNone (PStr "https://a/ept.json")).
Proof.
  apply (reconciliation_is_symmetric quiet_world (PStr "https://a/ept.json") PNone);
    reflexivity.
Defined.

(** X14.  [_get_ept_url] raises [KeyError] on a row without the column
    [ept_usiaei], or with it and without [EPT], and [TypeError] when
    one of the two cells is a list or a dictionary (an unhashable
    value, as a [link] that is a json array). *)
Theorem reconciliation_errors (W : World) (x : gmap string pyval) :
  (x !! "ept_usiaei" = None ->
     _get_ept_url W x = Raise (KeyError (PStr "ept_usiaei"))) /\
  (forall a, x !! "ept_usiaei" = Some a -> x !! "EPT" = None ->
     _get_ept_url W x = Raise (KeyError (PStr "EPT"))) /\
  (forall a b, x !! "ept_usiaei" = Some a -> x !! "EPT" = Some b ->
     hashable a && hashable b = false ->
     _get_ept_url W x = Raise TypeError).
Proof.
  unfold _get_ept_url. repeat split.
  - intros Ha. now rewrite (loc_get_None _ _ Ha).
  - intros a Ha Hb. rewrite (loc_get_Some _ _ _ Ha). cbn [bind].
    now rewrite (loc_get_None _ _ Hb).
  - intros a b Ha Hb Hh. rewrite (loc_get_Some _ _ _ Ha), (loc_get_Some _ _ _ Hb).
    cbn [bind]. unfold list_set2. now rewrite Hh.
Qed.

(** X15.  For any two hashable cells (strings, numbers, booleans, null
    values), [_get_ept_url] raises nothing and returns either [nan] or
    one of the two cells, and then one that is not null. *)
Theorem reconciliation_result (W : World) (x : gmap string pyval) (a b : pyval) :
  x !! "ept_usiaei" = Some a -> x !! "EPT" = Some b ->
  hashable a = true -> hashable b = true ->
  exists v,
    _get_ept_url W x = Ok v /\
    (v = np_nan \/ ((v = a \/ v = b) /\ pd_isnull v = false)).
Proof.
  intros Ha Hb Hha Hhb. unfold _get_ept_url.
  rewrite (loc_get_Some _ _ _ Ha), (loc_get_Some _ _ _ Hb). cbn [bind].
  unfold list_set2. rewrite Hha, Hhb. cbn [andb bind].
  destruct (same_key W a b), (set_flip W a b), (pd_isnull a) eqn:Na, (pd_isnull b) eqn:Nb;
    cbn [List.filter negb]; rewrite ?Na, ?Nb; cbn [List.filter negb length Nat.eqb list_first];
    eexists; (split; [reflexivity |]); auto.
Qed.

Lemma reconciliation_result_witness :
  exists v,
    _get_ept_url quiet_world (endpoint_row (PInt 7) (PStr "https://a/ept.json")) = Ok v /\
    (v = np_nan \/
     ((v = PInt 7 \/ v = PStr "https://a/ept.json") /\ pd_isnull v = false)).
Proof.
  apply (reconciliation_result quiet_world _ (PInt 7) (PStr "https://a/ept.json"));
    vm_compute; reflexivity.
Defined.

(** ** CRS resolution without a WKT text *)

(** X17.  With an endpoint for which the pdal tool answers a json
    dictionary: a [summary] without [srs], an [srs] without [wkt], and
    a [wkt] that is empty or otherwise false all give 4326, and pyproj
    is not consulted. *)
Theorem epsg_default_without_wkt (W : World) (u output : string) :
  check_output W ["pdal"; "info"; "--summary"; u] = Ok output ->
  (forall d sd, json_loads W output = Some (PDict d) ->
     assoc "summary" d = Some (PDict sd) -> assoc "srs" sd = None ->
     _get_ept_epsg W (PStr u) = Ok 4326) /\
  (forall d sd rd, json_loads W output = Some (PDict d) ->
     assoc "summary" d = Some (PDict sd) -> assoc "srs" sd = Some (PDict rd) ->
     assoc "wkt" rd = None ->
     _get_ept_epsg W (PStr u) = Ok 4326) /\
  (forall wkt, json_loads W output = Some (summary_doc wkt) ->
     truthy wkt = Ok false ->
     _get_ept_epsg W (PStr u) = Ok 4326).
Proof.
  intros H. repeat split.
  - intros d sd Hj Hd Hs. cbn. rewrite H. cbn. rewrite Hj. cbn. rewrite Hd. cbn.
    now rewrite Hs.
  - intros d sd rd Hj Hd Hs Hr. cbn. rewrite H. cbn. rewrite Hj. cbn. rewrite Hd. cbn.
    rewrite Hs. cbn. now rewrite Hr.
  - intros wkt Hj Ht. cbn. rewrite H. cbn. rewrite Hj. cbn. now rewrite Ht.
Qed.

Lemma epsg_default_without_wkt_witness :
  _get_ept_epsg empty_wkt_world (PStr "https://example.org/ept.json") = Ok 4326.
Proof.
  refine (proj2 (proj2 (epsg_default_without_wkt empty_wkt_world
                          "https://example.org/ept.json" "summary" eq_refl))
            (PStr "") _ _); reflexivity.
Defined.

(** ** Extraction request: the stages *)

(** X18.  For a table with one frame in [ept_gdf]: with [write] set,
    pdal gets two stages, the reader stage that it gets without
    [write] followed by a [writers.las] stage whose [filename] is
    [out_las]; when the reader stage cannot be built, both calls raise
    the same exception. *)
Theorem write_appends_a_stage (W : World) (v : pyval) (rest : list pyval)
    (frame : geoframe) (geometry_method : pyval) (out_las : string) :
  let gdf := mkCollections (Some (v :: rest)) (Some [frame]) in
  (exists stage,
     fetch_lidar W gdf geometry_method false out_las = run_stages W [stage] out_las /\
     fetch_lidar W gdf geometry_method true out_las =
       run_stages W [stage; writer_stage out_las] out_las) \/
  (exists e,
     fetch_lidar W gdf geometry_method false out_las = Raise e /\
     fetch_lidar W gdf geometry_method true out_las = Raise e).
Proof.
  intros gdf. unfold fetch_lidar, gdf.
  cbn [ept ept_gdf column bind series_item].
  destruct (eq_str geometry_method "bounds").
  - left. destruct (total_bounds W frame) as [[[minx miny] maxx] maxy].
    cbn [bind]. eexists. split; reflexivity.
  - destruct (eq_str geometry_method "polygon").
    + destruct (wkt_at_0 W frame) as [wkt | e]; cbn [bind].
      * left. eexists. split; reflexivity.
      * right. exists e. split; reflexivity.
    + left. cbn [bind]. eexists. split; reflexivity.
Qed.

(** X19.  For a table with one frame in [ept_gdf]: a [geometry_method]
    that is neither [bounds] nor [polygon] gives a reader stage with
    the three fields [type], [filename], [tag] and no spatial filter;
    [polygon] adds the WKT text of the frame as [polygon], and when
    that text cannot be had its exception is raised and pdal is not
    run. *)
Theorem spatial_filter_by_method (W : World) (v : pyval) (rest : list pyval)
    (frame : geoframe) (out_las : string) :
  let gdf := mkCollections (Some (v :: rest)) (Some [frame]) in
  (forall m, eq_str m "bounds" = false -> eq_str m "polygon" = false ->
     fetch_lidar W gdf m false out_las = run_stages W [PDict (reader_fields v)] out_las) /\
  (forall wkt, wkt_at_0 W frame = Ok wkt ->
     fetch_lidar W gdf (PStr "polygon") false out_las =
       run_stages W [PDict (reader_fields v ++ [("polygon", wkt)])] out_las) /\
  (forall e, wkt_at_0 W frame = Raise e ->
     fetch_lidar W gdf (PStr "polygon") false out_las = Raise e).
Proof.
  intros gdf. unfold fetch_lidar, gdf. cbn [ept ept_gdf column bind series_item].
  repeat split.
  - intros m Hb Hp. now rewrite Hb, Hp.
  - intros wkt Hw. replace (eq_str (PStr "polygon") "bounds") with false by reflexivity.
    replace (eq_str (PStr "polygon") "polygon") with true by reflexivity.
    now rewrite Hw.
  - intros e Hw. replace (eq_str (PStr "polygon") "bounds") with false by reflexivity.
    replace (eq_str (PStr "polygon") "polygon") with true by reflexivity.
    now rewrite Hw.
Qed.

(** X20.  [fetch_lidar] works on one-row tables only: whenever it
    returns, the [ept] column has a value and the [ept_gdf] column
    exactly one frame, and the file name returned is [out_las], written
    or not; with a value in [ept] and no or several frames in [ept_gdf]
    it raises [ValueError] and pdal is not run. *)
Theorem fetch_lidar_one_row (W : World) (gdf : collections) (geometry_method : pyval)
    (write : bool) (out_las : string) :
  (forall count arrays metadata name,
     fetch_lidar W gdf geometry_method write out_las = Ok (count, arrays, metadata, name) ->
     name = out_las /\
     exists v rest frame, ept gdf = Some (v :: rest) /\ ept_gdf gdf = Some [frame]) /\
  (forall v rest frames,
     ept gdf = Some (v :: rest) -> ept_gdf gdf = Some frames -> length frames <> 1%nat ->
     fetch_lidar W gdf geometry_method write out_las =
       Raise (ValueError "can only convert an array of size 1 to a Python scalar")).
Proof.
  split.
  - intros count arrays metadata name. unfold fetch_lidar.
    destruct (ept gdf) as [[| v rest] |]; cbn [column bind]; try discriminate.
    destruct (ept_gdf gdf) as [[| frame [| f2 frames]] |]; cbn [column bind series_item];
      try discriminate.
    intros H. split; [| now exists v, rest, frame].
    revert H. step_bind. step_bind. destruct a0 as [[c a'] m]. now intros [= _ _ _ <-].
  - intros v rest frames He Hf Hlen. unfold fetch_lidar. rewrite He, Hf.
    cbn [column bind].
    destruct frames as [| f [| f2 frames]]; cbn in Hlen; try lia; reflexivity.
Qed.

(** ** Spatial query client: the form fields *)

Lemma in_queries (locs : list (pyval * pyval)) (q : query) :
  In q (queries locs) -> In (fst q) urls /\ In (snd q) locs.
Proof.
  unfold queries. rewrite in_flat_map. intros (url & Hu & Hq).
  apply in_map_iff in Hq. destruct Hq as (l & <- & Hl). now split.
Qed.

Lemma in_take {A : Type} (k : nat) (l : list A) (a : A) : In a (take k l) -> In a l.
Proof.
  revert k. induction l as [| b l IH]; intros [| k]; cbn; try tauto.
  intros [-> | H]; [now left | right; now apply (IH k)].
Qed.

(** X21.  Every request that [make_post_request] makes goes to one of
    the two service URLs and carries exactly the seven form fields of
    the payload, in their order and with their fixed values, except
    [geometry], which is the text of the [esri_geometry] of one of the
    regions: the dictionary that the loops update in place never gains
    or loses a field.  A region without an encoding ([None]) is
    requested with the text [None]. *)
Theorem request_form_fields (W : World) (self : SearchLidarInventory)
    (gdf : geoframe) (locs : list (pyval * pyval)) (req : request) :
  frame_records gdf = Ok locs ->
  In req (fst (make_post_request W self gdf)) ->
  exists name esri,
    In (name, esri) locs /\
    In (req_url req) urls /\
    req_data req =
      [ ("outFields", "*"); ("geometry", str_format W esri);
        ("geometryType", "esriGeometryPolygon");
        ("spatialRel", "esriSpatialRelIntersects"); ("returnGeometry", "true");
        ("returnIdsOnly", "false"); ("f", "geojson") ] /\
    (esri = PNone -> assoc_text "geometry" (req_data req) = Some "None").
Proof.
  intros Hlocs. rewrite (make_post_request_queries W self gdf locs Hlocs).
  destruct (post_queries_prefix W self (queries locs) (mkClient [] initial_payload [])
              geometry_slot_initial) as (k & p & c & r & Hr & _).
  rewrite Hr. intros Hin.
  assert (Hin' : In req (map (query_request W) (take k (queries locs)))).
  { destruct r as [[] | e]; exact Hin. }
  apply in_map_iff in Hin'. destruct Hin' as ([url [name esri]] & <- & Hq).
  apply in_take, in_queries in Hq. destruct Hq as [Hu Hl]. cbn [fst snd] in Hu, Hl.
  exists name, esri. split; [exact Hl |]. split; [exact Hu |]. split; [reflexivity |].
  intros ->. reflexivity.
Qed.

Lemma request_form_fields_witness :
  exists name esri,
    In (name, esri) [(PStr "site", PStr "{}")] /\
    assoc_text "geometry"
      (req_data (query_request quiet_world (nth 0 urls "", (PStr "site", PStr "{}")))) =
      Some (str_format quiet_world esri).
Proof.
  destruct (request_form_fields quiet_world (SearchLidarInventory_init []) one_region
              [(PStr "site", PStr "{}")]
              (query_request quiet_world (nth 0 urls "", (PStr "site", PStr "{}"))))
    as (name & esri & Hin & _ & Hdata & _).
  - vm_compute. reflexivity.
  - vm_compute. left. reflexivity.
  - exists name, esri. split; [exact Hin |]. rewrite Hdata. reflexivity.
Defined.
